(** * digi-me: the conversation store, the personality engine and the clone

    A shallow embedding of [digi_me/core/context_manager.py],
    [digi_me/core/personality.py] and [digi_me/core/clone.py].

    Conventions of the embedding.
    - A naive [datetime] is an integer number of microseconds ([Z]);
      [timedelta(days=d)] is [d * 86_400_000_000].  Every function that reads
      [datetime.now()] takes the clock reading as an argument [now].
    - Python [float] weights and probabilities are exact rationals ([Q]);
      rounding and NaN are outside the model.  [min] and [max] keep Python's
      "first argument wins a tie" reading.
    - [str] is [string] (bytes); [str.lower] lowers ASCII letters.
    - [dict] and [defaultdict] keyed by strings are [gmap string _], except
      the trait table, whose iteration order drives the random source and is
      therefore kept as an insertion-ordered association list.
    - Objects mutated in place are threaded explicitly: a function that
      mutates [self] returns the new [self]. *)

From Stdlib Require Import ZArith QArith Lia Lqa String Ascii.
From stdpp Require Import base option list gmap strings.

Local Open Scope string_scope.
Local Open Scope list_scope.
Local Open Scope Z_scope.

(** ** Time *)

Module Datetime.

Definition datetime := Z.

Definition microseconds_per_day : Z := 86400000000.

(** [timedelta(days=d)] *)
Definition timedelta_days (d : Z) : Z := d * microseconds_per_day.

(** [dt.time()]: the time of day, in microseconds since midnight. *)
Definition time_of_day (dt : datetime) : Z := dt `mod` microseconds_per_day.

(** [time(h, m)] *)
Definition time_hm (h m : Z) : Z := (h * 3600 + m * 60) * 1000000.

(** [(a - b).days]: a [timedelta] is normalised with a floored day count. *)
Definition days_between (a b : datetime) : Z := (a - b) `div` microseconds_per_day.

End Datetime.

(** ** Python list slicing, [l[start:]] *)

Definition slice_from {A} (start : Z) (l : list A) : list A :=
  let n := Z.of_nat (length l) in
  let s := if start <? 0 then Z.max 0 (start + n) else Z.min start n in
  drop (Z.to_nat s) l.

(** The last [n] elements of a list. *)
Definition lastn {A} (n : nat) (l : list A) : list A := drop (length l - n) l.

(** ** context_manager.py *)

Module ContextManager.
Import Datetime.

(** [class ConversationMessage] *)
Record ConversationMessage := mkMessage {
  content : string;
  role : string;
  timestamp : datetime
}.

(** [ConversationMessage.__init__]: [timestamp or datetime.now()]; a
    [datetime] is always truthy, so only [None] takes the default. *)
Definition new_message (c r : string) (ts : option datetime) (now : datetime)
  : ConversationMessage :=
  mkMessage c r (default now ts).

(** The dictionary built by [to_dict].  The source renders the timestamp with
    [isoformat()], which [fromisoformat] inverts; the instant itself is kept
    here. *)
Record MessageDict := mkDict {
  d_content : string;
  d_role : string;
  d_timestamp : datetime
}.

Definition to_dict (m : ConversationMessage) : MessageDict :=
  mkDict (content m) (role m) (timestamp m).

(** [collections.deque(maxlen=n)]: an append to a full deque discards the
    item at the other end. *)
Record deque := mkDeque {
  maxlen : nat;
  items : list ConversationMessage
}.

Definition deque_new (n : nat) : deque := mkDeque n [].

Definition deque_append (d : deque) (x : ConversationMessage) : deque :=
  let l := items d ++ [x] in
  mkDeque (maxlen d) (if (maxlen d <? length l)%nat then drop 1 l else l).

(** One entry of [conversation_metadata]: a dict with the keys
    ['last_activity'], ['message_count'] and ['first_message'], each of which
    may be missing. *)
Record Metadata := mkMetadata {
  last_activity : option datetime;
  message_count : option nat;
  first_message : option datetime
}.

Definition empty_metadata : Metadata := mkMetadata None None None.

(** [class ContextManager] *)
Record t := mkCM {
  max_messages_per_conversation : nat;
  context_window_days : Z;
  conversations : gmap string deque;
  conversation_metadata : gmap string Metadata
}.

(** [ContextManager.__init__] *)
Definition init (max_messages : nat) (window_days : Z) : t :=
  mkCM max_messages window_days ∅ ∅.

Definition set_conversations (cm : t) (c : gmap string deque) : t :=
  mkCM (max_messages_per_conversation cm) (context_window_days cm) c
       (conversation_metadata cm).

Definition set_conversation_metadata (cm : t) (md : gmap string Metadata) : t :=
  mkCM (max_messages_per_conversation cm) (context_window_days cm)
       (conversations cm) md.

(** [self.conversations[key]] on the [defaultdict]: a missing key is inserted
    with a fresh bounded deque before its value is returned. *)
Definition conversations_getitem (cm : t) (key : string) : deque * t :=
  match conversations cm !! key with
  | Some d => (d, cm)
  | None =>
      let d := deque_new (max_messages_per_conversation cm) in
      (d, set_conversations cm (<[key := d]> (conversations cm)))
  end.

(** [self.conversation_metadata[key]] on the [defaultdict(dict)]. *)
Definition metadata_getitem (cm : t) (key : string) : Metadata * t :=
  match conversation_metadata cm !! key with
  | Some md => (md, cm)
  | None =>
      (empty_metadata,
       set_conversation_metadata cm (<[key := empty_metadata]> (conversation_metadata cm)))
  end.

(** [add_message] *)
Definition add_message (cm : t) (conversation_key c r : string)
    (ts : option datetime) (now : datetime) : t :=
  let message := new_message c r ts now in
  (* self.conversations[conversation_key].append(message) *)
  let '(dq, cm) := conversations_getitem cm conversation_key in
  let cm := set_conversations cm
              (<[conversation_key := deque_append dq message]> (conversations cm)) in
  (* metadata = self.conversation_metadata[conversation_key] *)
  let '(metadata, cm) := metadata_getitem cm conversation_key in
  (* metadata['message_count'] = len(self.conversations[conversation_key]) *)
  let '(dq, cm) := conversations_getitem cm conversation_key in
  let metadata :=
    mkMetadata (Some (timestamp message))
               (Some (length (items dq)))
               (match first_message metadata with
                | Some f => Some f
                | None => Some (timestamp message)
                end) in
  set_conversation_metadata cm (<[conversation_key := metadata]> (conversation_metadata cm)).

(** The window test of [get_conversation_history]:
    [msg.timestamp >= datetime.now() - timedelta(days=self.context_window_days)] *)
Definition in_window (cm : t) (now : datetime) (m : ConversationMessage) : bool :=
  now - timedelta_days (context_window_days cm) <=? timestamp m.

(** [if limit and len(messages) > limit: messages = messages[-limit:]];
    [None] and [0] are both falsy. *)
Definition apply_limit {A} (limit : option Z) (messages : list A) : list A :=
  match limit with
  | None => messages
  | Some l =>
      if negb (l =? 0) && (l <? Z.of_nat (length messages))
      then slice_from (- l) messages
      else messages
  end.

(** [get_conversation_history]: the returned list, and [self] afterwards. *)
Definition get_conversation_history (cm : t) (conversation_key : string)
    (limit : option Z) (now : datetime) : list MessageDict * t :=
  let '(dq, cm') := conversations_getitem cm conversation_key in
  let messages := items dq in
  let messages := filter (λ m, in_window cm now m = true) messages in
  let messages := apply_limit limit messages in
  (map to_dict messages, cm').

(** [get_context_stats()['total_conversations']] *)
Definition total_conversations (cm : t) : nat := size (conversations cm).

(** A run of [add_message] calls on one key; each request carries the
    arguments of the call and the clock reading at the call. *)
Record AddRequest := mkAdd {
  a_content : string;
  a_role : string;
  a_timestamp : option datetime;
  a_now : datetime
}.

Definition message_of (a : AddRequest) : ConversationMessage :=
  new_message (a_content a) (a_role a) (a_timestamp a) (a_now a).

Definition add_messages (cm : t) (key : string) (reqs : list AddRequest) : t :=
  fold_left (λ cm a, add_message cm key (a_content a) (a_role a) (a_timestamp a) (a_now a))
            reqs cm.

(** The stored messages of a key, without touching the store. *)
Definition stored (cm : t) (key : string) : list ConversationMessage :=
  match conversations cm !! key with
  | Some d => items d
  | None => []
  end.

(** The deque [add_message] appends to: the stored one, or a fresh one. *)
Definition deque_of (cm : t) (key : string) : deque :=
  default (deque_new (max_messages_per_conversation cm)) (conversations cm !! key).

(** Every deque of the store was created with the manager's capacity and
    holds no more than that. *)
Definition well_formed (cm : t) : Prop :=
  ∀ key d, conversations cm !! key = Some d →
    maxlen d = max_messages_per_conversation cm ∧
    (length (items d) ≤ maxlen d)%nat.

(** [self.conversation_metadata.get(key, {}).get('first_message')] and
    [....get('last_activity')] *)
Definition first_stamp (cm : t) (key : string) : option datetime :=
  conversation_metadata cm !! key ≫= first_message.
Definition last_stamp (cm : t) (key : string) : option datetime :=
  conversation_metadata cm !! key ≫= last_activity.

(** The dictionary returned by [get_conversation_summary]; the empty case has
    no ['recent_activity'] key. *)
Record Summary := mkSummary {
  s_message_count : nat;
  s_first_message : option datetime;
  s_last_activity : option datetime;
  s_days_active : Z;
  s_recent_activity : option nat
}.

(** [get_conversation_summary]: the summary, and [self] afterwards (the
    messages are read through [self.conversations[key]]). *)
Definition get_conversation_summary (cm : t) (conversation_key : string)
    (now : datetime) : Summary * t :=
  let '(dq, cm') := conversations_getitem cm conversation_key in
  let messages := items dq in
  match messages with
  | [] => (mkSummary 0 None None 0 None, cm')
  | m0 :: _ =>
      let first_message := timestamp m0 in
      let last_activity := timestamp (List.last messages m0) in
      let days_active := days_between last_activity first_message + 1 in
      (mkSummary (length messages) (Some first_message) (Some last_activity) days_active
         (Some (length (filter (λ m, now - timedelta_days 7 ≤ timestamp m) messages))),
       cm')
  end.

(** The test of [cleanup_old_conversations] on one key:
    [last_activity and last_activity < cutoff_date], with the metadata read by
    [.get(key, {})]. *)
Definition stale (cm : t) (cutoff_date : datetime) (conversation_key : string) : bool :=
  match last_stamp cm conversation_key with
  | Some la => la <? cutoff_date
  | None => false
  end.

(** [cleanup_old_conversations]: the keys of [conversations] that test stale
    are deleted from both dictionaries. *)
Definition cleanup_old_conversations (cm : t) (now : datetime) : t :=
  let cutoff_date := now - timedelta_days (context_window_days cm) in
  let to_clean (key : string) : bool :=
    bool_decide (is_Some (conversations cm !! key)) && stale cm cutoff_date key in
  mkCM (max_messages_per_conversation cm) (context_window_days cm)
       (filter (λ kv, to_clean kv.1 = false) (conversations cm))
       (filter (λ kv, to_clean kv.1 = false) (conversation_metadata cm)).

(** The test [last_activity and last_activity >= cutoff_date]. *)
Definition active_since (cutoff_date : datetime) (metadata : Metadata) : bool :=
  match last_activity metadata with
  | Some la => cutoff_date <=? la
  | None => false
  end.

(** [get_active_conversations]: the keys whose metadata has a
    ['last_activity'] at or after the cutoff.  The source returns them as a
    list in insertion order; the order is not kept here. *)
Definition get_active_conversations (cm : t) (days : Z) (now : datetime) : gset string :=
  let cutoff_date := now - timedelta_days days in
  dom (filter (λ kv, active_since cutoff_date kv.2 = true) (conversation_metadata cm)).

(** [get_context_stats()['total_messages']] *)
Definition total_messages (cm : t) : nat :=
  map_fold (λ _ d acc, (length (items d) + acc)%nat) 0%nat (conversations cm).

(** [strftime("%H:%M")] *)
Definition digit (n : Z) : ascii := ascii_of_nat (48 + Z.to_nat n).
Definition two_digits (n : Z) : string :=
  String (digit (n `div` 10)) (String (digit (n `mod` 10)) EmptyString).
Definition strftime_HM (dt : datetime) : string :=
  let tod := time_of_day dt in
  (two_digits (tod `div` 3600000000) ++ ":" ++ two_digits ((tod `div` 60000000) `mod` 60))%string.

(** ["\n".join(lines)] *)
Fixpoint join_lines (lines : list string) : string :=
  match lines with
  | [] => ""
  | [l] => l
  | l :: rest => (l ++ String "010"%char (join_lines rest))%string
  end.

Definition no_history : string := "No previous conversation history.".

(** One line of [get_recent_context]. *)
Definition context_line (msg : MessageDict) : string :=
  let role_label := if String.eqb (d_role msg) "assistant" then "You" else "Them" in
  ("[" ++ strftime_HM (d_timestamp msg) ++ "] " ++ role_label ++ ": " ++ d_content msg)%string.

(** [get_recent_context] *)
Definition get_recent_context (cm : t) (conversation_key : string)
    (max_messages : Z) (now : datetime) : string * t :=
  let '(messages, cm') :=
    get_conversation_history cm conversation_key (Some max_messages) now in
  match messages with
  | [] => (no_history, cm')
  | _ => (join_lines (map context_line messages), cm')
  end.

End ContextManager.

(** ** Python strings *)

Module PyStr.

Definition lower_ascii (c : ascii) : ascii :=
  let n := nat_of_ascii c in
  if (65 <=? n)%nat && (n <=? 90)%nat then ascii_of_nat (n + 32) else c.

(** [s.lower()] *)
Fixpoint lower (s : string) : string :=
  match s with
  | EmptyString => EmptyString
  | String c s' => String (lower_ascii c) (lower s')
  end.

(** [word in s] *)
Fixpoint contains (word s : string) : bool :=
  String.prefix word s ||
  match s with
  | EmptyString => false
  | String _ s' => contains word s'
  end.

(** [any(word in s for word in words)] *)
Definition any_in (words : list string) (s : string) : bool :=
  existsb (λ word, contains word s) words.

(** [x in xs] for a list of strings *)
Definition mem (x : string) (xs : list string) : bool :=
  bool_decide (x ∈ xs).

End PyStr.

(** ** Python floats, as rationals *)

Module PyFloat.

Definition ltb (x y : Q) : bool := negb (Qle_bool y x).
Definition leb (x y : Q) : bool := Qle_bool x y.

(** [min(a, b)]: [b] is taken only when [b < a]. *)
Definition py_min (a b : Q) : Q := if ltb b a then b else a.

(** [max(a, b)]: [b] is taken only when [b > a]. *)
Definition py_max (a b : Q) : Q := if ltb a b then b else a.

End PyFloat.

(** ** The random source

    [random.random()] and [random.sample(population, k)] of the [random]
    module, as an interface over an explicit generator state. *)

Class RandomSource (G : Type) := {
  random : G → Q * G;
  sample : list string → nat → G → list string * G
}.

(** A scripted source: [random()] pops the next scripted draw (and yields 0
    once the script is exhausted); [sample] takes the first [k] elements. *)
Definition Scripted := list Q.

#[export] Instance scripted_source : RandomSource Scripted := {
  random g := match g with
              | [] => (0%Q, [])
              | d :: g' => (d, g')
              end;
  sample population k g := (take k population, g)
}.

(** ** The message handed over by a platform: a [dict] read with
    [.get('sender', ...)], [.get('content', '')], [.get('context', {})]. *)

Record MessageData := mkMessageData {
  md_sender : option string;
  md_content : option string;
  md_context : option (gmap string string)
}.

(** ** personality.py *)

Module PersonalityEngine.
Import Datetime PyFloat.

Record PersonalityTrait := mkTrait {
  name : string;
  weight : Q;
  description : string;
  examples : list string;
  active_contexts : list string
}.

Record CommunicationStyle := mkStyle {
  formality_level : Q;
  response_length : string;
  emoji_usage : Q;
  humor_level : Q;
  technical_depth : Q
}.

Record RelationshipProfile := mkProfile {
  contact_identifier : string;
  relationship_type : string;
  closeness_level : Q;
  communication_style_override : option CommunicationStyle;
  personality_adjustments : gmap string Q;
  last_interaction : option datetime;
  interaction_frequency : Z;
  notes : string
}.

(** The [config] dict of [__init__], with the keys it reads. *)
Record Config := mkConfig {
  cfg_formality_level : option Q;
  cfg_response_length : option string;
  cfg_emoji_usage : option Q;
  cfg_humor_level : option Q;
  cfg_technical_depth : option Q;
  cfg_response_probability : option Q
}.

(** The trait table: a [dict] in insertion order. *)
Definition TraitTable := list (string * PersonalityTrait).

(** [d.get(key)] / [key in d] on an insertion-ordered dict *)
Fixpoint dict_get {V} (key : string) (d : list (string * V)) : option V :=
  match d with
  | [] => None
  | (k, v) :: d' => if String.eqb k key then Some v else dict_get key d'
  end.

(** [d[key] = v]: an existing key keeps its position. *)
Fixpoint dict_set {V} (key : string) (v : V) (d : list (string * V)) : list (string * V) :=
  match d with
  | [] => [(key, v)]
  | (k, v') :: d' =>
      if String.eqb k key then (k, v) :: d' else (k, v') :: dict_set key v d'
  end.

(** [class PersonalityEngine] *)
Record t := mkEngine {
  traits : TraitTable;
  base_communication_style : CommunicationStyle;
  relationships : gmap string RelationshipProfile;
  response_probability : Q;
  active_hours_start : Z;
  active_hours_end : Z
}.

Definition default_traits : list PersonalityTrait := [
  mkTrait "helpfulness" (8 # 10)
    "Tendency to help others and provide useful information"
    ["Let me help you with that"; "Here's what I would suggest"]
    ["work"; "professional"; "support"];
  mkTrait "analytical" (7 # 10)
    "Tendency to analyze problems systematically"
    ["Let me break this down"; "There are several factors to consider"]
    ["problem_solving"; "technical"; "planning"];
  mkTrait "friendliness" (6 # 10)
    "Warm and approachable communication style"
    ["Hope you're doing well!"; "Thanks for reaching out"]
    ["casual"; "social"; "greeting"];
  mkTrait "decisiveness" (5 # 10)
    "Ability to make clear decisions and recommendations"
    ["I'd go with option A"; "My recommendation would be"]
    ["decision_making"; "leadership"; "advice"]
].

(** [_initialize_default_traits] *)
Definition _initialize_default_traits (tr : TraitTable) : TraitTable :=
  fold_left (λ tr trait, dict_set (name trait) trait tr) default_traits tr.

(** [__init__] *)
Definition init (config : Config) : t :=
  mkEngine
    (_initialize_default_traits [])
    (mkStyle (default (5 # 10) (cfg_formality_level config))
             (default "medium" (cfg_response_length config))
             (default (3 # 10) (cfg_emoji_usage config))
             (default (4 # 10) (cfg_humor_level config))
             (default (6 # 10) (cfg_technical_depth config)))
    ∅
    (default (8 # 10) (cfg_response_probability config))
    (time_hm 8 0)
    (time_hm 22 0).

Definition set_traits (pe : t) (tr : TraitTable) : t :=
  mkEngine tr (base_communication_style pe) (relationships pe)
           (response_probability pe) (active_hours_start pe) (active_hours_end pe).

Definition set_relationships (pe : t) (rs : gmap string RelationshipProfile) : t :=
  mkEngine (traits pe) (base_communication_style pe) rs
           (response_probability pe) (active_hours_start pe) (active_hours_end pe).

(** [add_trait] *)
Definition add_trait (pe : t) (trait : PersonalityTrait) : t :=
  set_traits pe (dict_set (name trait) trait (traits pe)).

(** [add_relationship] *)
Definition add_relationship (pe : t) (profile : RelationshipProfile) : t :=
  set_relationships pe (<[contact_identifier profile := profile]> (relationships pe)).

(** The body of the loop of [_get_active_traits] for one trait. *)
Definition effective_weight (relationship : option RelationshipProfile)
    (trait_name : string) (trait : PersonalityTrait) : Q :=
  let weight := weight trait in
  match relationship with
  | Some r =>
      match personality_adjustments r !! trait_name with
      | Some adjustment => py_max 0 (py_min 1 (weight + adjustment))
      | None => weight
      end
  | None => weight
  end.

(** [_get_active_traits] *)
Definition _get_active_traits (pe : t) (relationship : option RelationshipProfile)
  : list (string * Q) :=
  map (λ '(trait_name, trait), (trait_name, effective_weight relationship trait_name trait))
      (traits pe).

(** [_get_behavioral_guidelines] *)
Definition _get_behavioral_guidelines (relationship : option RelationshipProfile)
  : list string :=
  let guidelines := [
    "Maintain consistency with established personality";
    "Be authentic and natural in responses";
    "Consider the relationship context and history" ] in
  match relationship with
  | Some r =>
      if String.eqb (relationship_type r) "professional" then
        guidelines ++ ["Keep responses professional and focused";
                       "Provide clear, actionable information"]
      else if String.eqb (relationship_type r) "family" then
        guidelines ++ ["Be warm and supportive";
                       "Show personal interest and care"]
      else if String.eqb (relationship_type r) "friend" then
        guidelines ++ ["Be casual and friendly";
                       "Include appropriate humor if suitable"]
      else guidelines
  | None => guidelines
  end.

(** [clamp(x, lo, hi)] as the specification words it; the code's
    [max(0.0, min(1.0, x))] is compared with it below. *)
Definition clamp (x lo hi : Q) : Q :=
  if ltb x lo then lo else if ltb hi x then hi else x.

(** The dictionary returned by [get_context_for_sender]. *)
Record RelationshipContext := mkRelCtx {
  rc_type : string;
  rc_closeness : Q;
  rc_frequency : Z
}.

Record Context := mkContext {
  communication_style : CommunicationStyle;
  personality_traits : list (string * Q);
  relationship_context : RelationshipContext;
  behavioral_guidelines : list string;
  response_examples : list string
}.

(** The keys of [message_type]. *)
Definition received : string := "received".

(** The three multipliers that [should_respond] applies to the base
    probability, each 1 when its condition does not hold. *)
Definition closeness_factor (pe : t) (sender : string) : Q :=
  match relationships pe !! sender with
  | Some relationship => (5 # 10) + (5 # 10) * closeness_level relationship
  | None => 1
  end.

Definition trigger_factor (content : string) : Q :=
  if PyStr.any_in ["help"; "question"; "urgent"; "please"] content then 12 # 10 else 1.

Definition hours_factor (pe : t) (now : datetime) : Q :=
  if negb ((active_hours_start pe <=? time_of_day now)
           && (time_of_day now <=? active_hours_end pe))
  then 3 # 10 else 1.

Section WithRandom.
Context {G : Type} `{RandomSource G}.

(** [_get_response_examples]: the loop, then [examples[:5]]. *)
Definition _get_response_examples_loop (pe : t) (active_traits : list (string * Q))
    (g : G) : list string * G :=
  fold_left
    (λ '(examples, g) '(trait_name, weight),
       match (if ltb (5 # 10) weight then dict_get trait_name (traits pe) else None) with
       | Some trait =>
           let '(draw, g) := random g in
           if ltb draw weight then
             let '(picked, g) :=
               sample (PersonalityEngine.examples trait)
                      (Nat.min 2 (length (PersonalityEngine.examples trait))) g in
             (examples ++ picked, g)
           else (examples, g)
       | None => (examples, g)
       end)
    active_traits ([], g).

Definition _get_response_examples (pe : t) (active_traits : list (string * Q))
    (g : G) : list string * G :=
  let '(examples, g) := _get_response_examples_loop pe active_traits g in
  (take 5 examples, g).

(** [get_context_for_sender] *)
Definition get_context_for_sender (pe : t) (sender : string) (g : G) : Context * G :=
  let relationship := relationships pe !! sender in
  let comm_style :=
    match relationship with
    | Some r =>
        match communication_style_override r with
        | Some s => s
        | None => base_communication_style pe
        end
    | None => base_communication_style pe
    end in
  let active_traits := _get_active_traits pe relationship in
  let guidelines := _get_behavioral_guidelines relationship in
  let '(examples, g) := _get_response_examples pe active_traits g in
  (mkContext comm_style active_traits
     (match relationship with
      | Some r => mkRelCtx (relationship_type r) (closeness_level r) (interaction_frequency r)
      | None => mkRelCtx "unknown" (5 # 10) 1
      end)
     guidelines examples,
   g).

(** The probability that [should_respond] compares the draw with:
    [min(1.0, base_prob)] after the three adjustments. *)
Definition response_threshold (pe : t) (message_data : MessageData) (now : datetime) : Q :=
  let sender := default "" (md_sender message_data) in
  let content := PyStr.lower (default "" (md_content message_data)) in
  let base_prob := response_probability pe in
  let base_prob :=
    match relationships pe !! sender with
    | Some relationship =>
        (base_prob * ((5 # 10) + (5 # 10) * closeness_level relationship))%Q
    | None => base_prob
    end in
  let base_prob :=
    if PyStr.any_in ["help"; "question"; "urgent"; "please"] content
    then (base_prob * (12 # 10))%Q else base_prob in
  let current_time := time_of_day now in
  let base_prob :=
    if negb ((active_hours_start pe <=? current_time) && (current_time <=? active_hours_end pe))
    then (base_prob * (3 # 10))%Q else base_prob in
  py_min 1 base_prob.

(** [should_respond]: [random.random() < min(1.0, base_prob)] *)
Definition should_respond (pe : t) (message_data : MessageData) (now : datetime)
    (g : G) : bool * G :=
  let threshold := response_threshold pe message_data now in
  let '(draw, g) := random g in
  (ltb draw threshold, g).

End WithRandom.

(** [update_interaction_history] *)
Definition update_interaction_history (pe : t) (sender message_type : string)
    (now : datetime) : t :=
  match relationships pe !! sender with
  | Some relationship =>
      let relationship :=
        mkProfile (contact_identifier relationship) (relationship_type relationship)
                  (closeness_level relationship)
                  (communication_style_override relationship)
                  (personality_adjustments relationship)
                  (Some now)
                  (if String.eqb message_type received
                   then interaction_frequency relationship + 1
                   else interaction_frequency relationship)
                  (notes relationship) in
      set_relationships pe (<[sender := relationship]> (relationships pe))
  | None => pe
  end.

End PersonalityEngine.

(** ** config/settings.py: the fields of [Settings] read by the clone *)

Record Settings := mkSettings {
  personality : PersonalityEngine.Config;
  ignore_senders : list string;
  response_triggers : list string
}.

(** [_get_default_config] *)
Definition default_settings : Settings :=
  mkSettings
    (PersonalityEngine.mkConfig (Some (5 # 10)) (Some "medium") (Some (3 # 10))
                                (Some (4 # 10)) (Some (6 # 10)) (Some (8 # 10)))
    []
    ["help"; "question"; "urgent"; "please"].

(** ** clone.py *)

Module DigitalClone.
Import Datetime.

(** [prompt_data], the dict handed to the LLM provider. *)
Record PromptData := mkPrompt {
  p_sender : string;
  p_content : string;
  p_context : gmap string string;
  p_personality : PersonalityEngine.Context;
  p_conversation_history : list ContextManager.MessageDict;
  p_platform : string
}.

(** What [LLMProvider.generate_response] can do: return a string, return
    [None], or raise. *)
Inductive Generated :=
  | Text (s : string)
  | NoText
  | Raises.

(** [class LLMProvider] (abstract): the one method the clone calls. *)
Record LLMProvider := mkProvider {
  generate_response : PromptData → Generated
}.

(** [class PlatformBase] (abstract): whether its [start()] / [stop()]
    coroutine raises. *)
Record Platform := mkPlatform {
  start_raises : bool;
  stop_raises : bool
}.

(** [class DigitalClone] *)
Record t := mkClone {
  settings : Settings;
  personality_engine : PersonalityEngine.t;
  context_manager : ContextManager.t;
  llm_provider : option LLMProvider;
  platforms : list (string * Platform);
  is_running : bool
}.

(** [__init__]: [ContextManager()] takes its defaults, 100 messages and 30 days. *)
Definition init (s : Settings) : t :=
  mkClone s (PersonalityEngine.init (personality s)) (ContextManager.init 100 30)
          None [] false.

(** [set_llm_provider] *)
Definition set_llm_provider (c : t) (provider : LLMProvider) : t :=
  mkClone (settings c) (personality_engine c) (context_manager c)
          (Some provider) (platforms c) (is_running c).

(** [add_platform] *)
Definition add_platform (c : t) (name : string) (platform : Platform) : t :=
  mkClone (settings c) (personality_engine c) (context_manager c) (llm_provider c)
          (PersonalityEngine.dict_set name platform (platforms c)) (is_running c).

Definition set_context_manager (c : t) (cm : ContextManager.t) : t :=
  mkClone (settings c) (personality_engine c) cm (llm_provider c)
          (platforms c) (is_running c).

Definition set_is_running (c : t) (b : bool) : t :=
  mkClone (settings c) (personality_engine c) (context_manager c) (llm_provider c)
          (platforms c) b.

(** Calls that leave the clone, in the order they are made. *)
Inductive Call :=
  | CallShouldRespond (message_data : MessageData)
  | CallGenerateResponse (prompt_data : PromptData)
  | CallPlatformStart (name : string)
  | CallPlatformStop (name : string).

Inductive Exn :=
  | ValueError (msg : string)
  | AttributeError
  | ProviderError
  | PlatformError (name : string).

Inductive Outcome (A : Type) :=
  | Return (a : A)
  | Raise (e : Exn).
Arguments Return {A} a.
Arguments Raise {A} e.

Section WithRandom.
Context {G : Type} `{RandomSource G}.

(** The clone together with what it runs against: the clock, the random
    source and the log of outgoing calls. *)
Record World := mkWorld {
  clone : t;
  now : datetime;
  rng : G;
  calls : list Call
}.

Definition with_clone (w : World) (c : t) : World :=
  mkWorld c (now w) (rng w) (calls w).
Definition with_rng (w : World) (g : G) : World :=
  mkWorld (clone w) (now w) g (calls w).
Definition log (w : World) (c : Call) : World :=
  mkWorld (clone w) (now w) (rng w) (calls w ++ [c]).

(** State and exceptions. *)
Definition M (A : Type) : Type := World → Outcome A * World.

Definition ret {A} (a : A) : M A := λ w, (Return a, w).
Definition raise {A} (e : Exn) : M A := λ w, (Raise e, w).
Definition bind {A B} (m : M A) (k : A → M B) : M B :=
  λ w, match m w with
       | (Return a, w') => k a w'
       | (Raise e, w') => (Raise e, w')
       end.
(** [try: body except Exception: handler] *)
Definition try_except {A} (body : M A) (handler : Exn → M A) : M A :=
  λ w, match body w with
       | (Return a, w') => (Return a, w')
       | (Raise e, w') => handler e w'
       end.

#[local] Instance M_ret : MRet M := @ret.
#[local] Instance M_bind : MBind M := λ A B k m, bind m k.

(** [self.context_manager.add_message(key, content, role)] *)
Definition cm_add_message (key c r : string) : M unit :=
  λ w, (Return tt,
        with_clone w (set_context_manager (clone w)
          (ContextManager.add_message (context_manager (clone w)) key c r None (now w)))).

(** [self.context_manager.get_conversation_history(key)] *)
Definition cm_get_conversation_history (key : string) : M (list ContextManager.MessageDict) :=
  λ w, let '(history, cm) :=
         ContextManager.get_conversation_history (context_manager (clone w)) key None (now w) in
       (Return history, with_clone w (set_context_manager (clone w) cm)).

(** [self.personality_engine.get_context_for_sender(sender)] *)
Definition pe_get_context_for_sender (sender : string) : M PersonalityEngine.Context :=
  λ w, let '(context, g) :=
         PersonalityEngine.get_context_for_sender (personality_engine (clone w)) sender (rng w) in
       (Return context, with_rng w g).

(** [self.personality_engine.should_respond(message_data)] *)
Definition pe_should_respond (message_data : MessageData) : M bool :=
  λ w, let w := log w (CallShouldRespond message_data) in
       let '(b, g) :=
         PersonalityEngine.should_respond (personality_engine (clone w)) message_data
                                          (now w) (rng w) in
       (Return b, with_rng w g).

(** [await self.llm_provider.generate_response(prompt_data)]; with no
    provider bound the attribute access on [None] raises. *)
Definition llm_generate_response (prompt_data : PromptData) : M (option string) :=
  λ w, match llm_provider (clone w) with
       | None => (Raise AttributeError, w)
       | Some provider =>
           let w := log w (CallGenerateResponse prompt_data) in
           match generate_response provider prompt_data with
           | Text s => (Return (Some s), w)
           | NoText => (Return None, w)
           | Raises => (Raise ProviderError, w)
           end
       end.

(** Truthiness of an [Optional[str]]. *)
Definition truthy (response : option string) : bool :=
  match response with
  | Some s => negb (String.eqb s "")
  | None => false
  end.

(** [_should_respond] *)
Definition _should_respond (platform_name : string) (message_data : MessageData) : M bool :=
  let sender := default "" (md_sender message_data) in
  let content := PyStr.lower (default "" (md_content message_data)) in
  λ w,
    if PyStr.mem sender (ignore_senders (settings (clone w))) then
      ret false w
    else if PyStr.any_in (response_triggers (settings (clone w))) content then
      ret true w
    else
      pe_should_respond message_data w.

(** [process_message] *)
Definition process_message (platform_name : string) (message_data : MessageData)
  : M (option string) :=
  λ w,
    if negb (is_running (clone w)) then ret None w
    else
      try_except
        (let sender := default "unknown" (md_sender message_data) in
         let content := default "" (md_content message_data) in
         let context := default ∅ (md_context message_data) in
         let conversation_key := (platform_name ++ ":" ++ sender)%string in
         cm_add_message conversation_key content "user" ;;
         respond ← _should_respond platform_name message_data ;
         if negb respond then ret None
         else
           personality_context ← pe_get_context_for_sender sender ;
           conversation_history ← cm_get_conversation_history conversation_key ;
           let prompt_data :=
             mkPrompt sender content context personality_context
                      conversation_history platform_name in
           response ← llm_generate_response prompt_data ;
           (if truthy response
            then cm_add_message conversation_key (default "" response) "assistant"
            else ret tt) ;;
           ret response)
        (λ e, ret None)
        w.

(** The part of [process_message] between the decision and the call of the
    provider: the personality context and the history go into the prompt. *)
Definition build_prompt (platform_name : string) (md : MessageData) : M PromptData :=
  let sender := default "unknown" (md_sender md) in
  let key := platform_name +:+ ":" +:+ sender in
  bind (pe_get_context_for_sender sender) (λ personality_context,
  bind (cm_get_conversation_history key) (λ conversation_history,
  ret (mkPrompt sender (default "" (md_content md)) (default ∅ (md_context md))
                personality_context conversation_history platform_name))).

(** [asyncio.gather] over the platforms' [start()] tasks: every task is
    created, and the first exception is the one that surfaces. *)
Definition start_platforms : M unit :=
  λ w,
    let w' := fold_left (λ w '(name, _), log w (CallPlatformStart name))
                        (platforms (clone w)) w in
    match List.find (λ '(_, p), start_raises p) (platforms (clone w)) with
    | Some (name, _) => (Raise (PlatformError name), w')
    | None => (Return tt, w')
    end.

Definition stop_platforms : M unit :=
  λ w,
    let w' := fold_left (λ w '(name, _), log w (CallPlatformStop name))
                        (platforms (clone w)) w in
    match List.find (λ '(_, p), stop_raises p) (platforms (clone w)) with
    | Some (name, _) => (Raise (PlatformError name), w')
    | None => (Return tt, w')
    end.

(** [start] *)
Definition start : M unit :=
  λ w,
    if is_running (clone w) then
      (* logger.warning("Digital Clone is already running"); return *)
      ret tt w
    else
      match llm_provider (clone w) with
      | None => raise (ValueError "LLM Provider must be set before starting") w
      | Some _ =>
          let w := with_clone w (set_is_running (clone w) true) in
          start_platforms w
      end.

(** [stop] *)
Definition stop : M unit :=
  λ w,
    if negb (is_running (clone w)) then ret tt w
    else
      let w := with_clone w (set_is_running (clone w) false) in
      stop_platforms w.

End WithRandom.

Arguments World G : clear implicits.
Arguments M G A : clear implicits.

End DigitalClone.

(** ** config/settings.py: the configuration tree *)

Module SettingsConfig.
Import PersonalityEngine.

(** A configuration value as YAML or JSON gives it: a scalar, a list, or a
    dict with string keys in insertion order. *)
#[warnings="-register-all"]
Inductive Value :=
  | VStr (s : string)
  | VInt (z : Z)
  | VFloat (q : Q)
  | VBool (b : bool)
  | VNone
  | VList (l : list Value)
  | VDict (d : list (string * Value)).

Definition Dict := list (string * Value).

(** [_get_default_config] *)
Definition _get_default_config : Dict := [
  ("personality", VDict [
     ("formality_level", VFloat (5 # 10));
     ("response_length", VStr "medium");
     ("emoji_usage", VFloat (3 # 10));
     ("humor_level", VFloat (4 # 10));
     ("technical_depth", VFloat (6 # 10));
     ("response_probability", VFloat (8 # 10)) ]);
  ("platforms", VDict [
     ("whatsapp", VDict [
        ("enabled", VBool true);
        ("headless", VBool false);
        ("chrome_profile_path", VStr "./chrome_profile");
        ("response_delay", VList [VInt 2; VInt 5]);
        ("scan_interval", VInt 3);
        ("auto_mark_read", VBool true) ]) ]);
  ("llm", VDict [
     ("provider", VStr "ollama");
     ("ollama", VDict [
        ("base_url", VStr "http://localhost:11434");
        ("model", VStr "llama3.1");
        ("timeout", VInt 60);
        ("max_tokens", VInt 500);
        ("temperature", VFloat (7 # 10));
        ("top_p", VFloat (9 # 10));
        ("repeat_penalty", VFloat (11 # 10));
        ("system_prompt", VNone) ]) ]);
  ("plugins", VDict [ ("enabled_plugins", VList []) ]);
  ("logging", VDict [
     ("level", VStr "INFO");
     ("file", VStr "digi-me.log");
     ("max_size", VInt 10485760);
     ("backup_count", VInt 5) ]);
  ("ignore_senders", VList []);
  ("response_triggers", VList [VStr "help"; VStr "question"; VStr "urgent"; VStr "please"]);
  ("context", VDict [
     ("max_messages_per_conversation", VInt 100);
     ("context_window_days", VInt 30) ])
].

(** The assignment [result[key] = ...] of [_merge_configs] for one user
    entry: two dicts are merged recursively, anything else is replaced by the
    user's value. *)
Fixpoint merge_value (old : option Value) (value : Value) {struct value} : Value :=
  match old, value with
  | Some (VDict default), VDict user =>
      VDict ((fix merge_into (result : Dict) (user : Dict) {struct user} : Dict :=
                match user with
                | [] => result
                | (key, value) :: rest =>
                    merge_into
                      (dict_set key (merge_value (dict_get key result) value) result)
                      rest
                end) default user)
  | _, _ => value
  end.

(** [_merge_configs]: [result = default.copy()], then one assignment per
    item of [user]. *)
Definition _merge_configs (default user : Dict) : Dict :=
  fold_left (λ result '(key, value),
               dict_set key (merge_value (dict_get key result) value) result)
            user default.

(** [key.split('.')] *)
Fixpoint split_dot (s : string) : list string :=
  match s with
  | EmptyString => [EmptyString]
  | String c s' =>
      if Ascii.eqb c "."%char then EmptyString :: split_dot s'
      else match split_dot s' with
           | [] => [String c EmptyString]
           | piece :: pieces => String c piece :: pieces
           end
  end.

(** The loop of [get]: [None] stands for the early [return default]. *)
Fixpoint get_path (keys : list string) (value : Value) : option Value :=
  match keys with
  | [] => Some value
  | k :: keys' =>
      match value with
      | VDict d =>
          match dict_get k d with
          | Some v => get_path keys' v
          | None => None
          end
      | _ => None
      end
  end.

(** [Settings.get] *)
Definition get (config : Dict) (key : string) (default : Value) : Value :=
  from_option id default (get_path (split_dot key) (VDict config)).

(** The walk of [set] from [current]: missing intermediate keys get a fresh
    dict; [None] stands for the [TypeError] raised when the walk meets a value
    that is not a dict (nothing has been written by then). *)
Fixpoint set_path (keys : list string) (value : Value) (current : Value) : option Value :=
  match keys with
  | [] => None
  | k :: keys' =>
      match current with
      | VDict d =>
          match keys' with
          | [] => Some (VDict (dict_set k value d))
          | _ :: _ =>
              let d := match dict_get k d with
                       | Some _ => d
                       | None => dict_set k (VDict []) d
                       end in
              match set_path keys' value (default (VDict []) (dict_get k d)) with
              | Some child => Some (VDict (dict_set k child d))
              | None => None
              end
          end
      | _ => None
      end
  end.

(** [Settings.set]: the configuration afterwards, or [None] for the
    exception. *)
Definition set (config : Dict) (key : string) (value : Value) : option Dict :=
  match set_path (split_dot key) value (VDict config) with
  | Some (VDict config') => Some config'
  | _ => None
  end.

(** Python dicts have no two equal keys, at any depth. *)
#[warnings="-register-all"]
Inductive wf_value : Value → Prop :=
  | wf_str s : wf_value (VStr s)
  | wf_int z : wf_value (VInt z)
  | wf_float q : wf_value (VFloat q)
  | wf_bool b : wf_value (VBool b)
  | wf_none : wf_value VNone
  | wf_list l : wf_value (VList l)
  | wf_dict d : NoDup d.*1 → Forall (λ kv, wf_value kv.2) d → wf_value (VDict d).

Definition is_dict (v : Value) : bool :=
  match v with
  | VDict _ => true
  | _ => false
  end.

(** [s.endswith(suffix)] *)
Definition endswith (s suffix : string) : bool :=
  let n := String.length s in
  let k := String.length suffix in
  (k <=? n)%nat && String.eqb (String.substring (n - k) k s) suffix.

(** [isinstance(value, (int, float)) and 0 <= value <= 1]; a [bool] is an
    [int]. *)
Definition unit_interval_number (value : Value) : bool :=
  match value with
  | VInt z => (0 <=? z) && (z <=? 1)
  | VFloat q => Qle_bool 0 q && Qle_bool q 1
  | VBool _ => true
  | _ => false
  end.

(** [field not in ollama_config] raises for a config that is not a
    container. *)
Definition contains_key (container : Value) (field : string) : option bool :=
  match container with
  | VDict d => Some (bool_decide (is_Some (dict_get field d)))
  | VStr s => Some (PyStr.contains field s)
  | VList l =>
      Some (existsb (λ v, match v with VStr s => String.eqb s field | _ => false end) l)
  | _ => None
  end.

(** [validate_config]: [Some true] when no error was collected, [None] when
    the method raises because a section is not a dict. *)
Definition validate_config (config : Dict) : option bool :=
  match default (VDict []) (dict_get "personality" config),
        default (VDict []) (dict_get "llm" config) with
  | VDict personality, VDict llm =>
      let levels_ok :=
        forallb (λ '(key, value),
                   if endswith key "_level" || endswith key "_usage"
                      || String.eqb key "response_probability"
                   then unit_interval_number value else true)
                personality in
      let length_ok :=
        match dict_get "response_length" personality with
        | Some (VStr s) => PyStr.mem s ["short"; "medium"; "long"]
        | _ => false
        end in
      let provider_is_ollama :=
        match dict_get "provider" llm with
        | Some (VStr s) => String.eqb s "ollama"
        | _ => false
        end in
      if provider_is_ollama then
        let ollama_config := default (VDict []) (dict_get "ollama" llm) in
        match contains_key ollama_config "base_url", contains_key ollama_config "model" with
        | Some has_url, Some has_model =>
            Some (levels_ok && length_ok && has_url && has_model)
        | _, _ => None
        end
      else Some false
  | _, _ => None
  end.

(** The user's configuration holds nothing at the path [keys]: walking down
    the path leaves the user's dicts at some key before the path ends. *)
Fixpoint untouched (keys : list string) (user : Value) : Prop :=
  match keys with
  | [] => False
  | k :: keys' =>
      match user with
      | VDict d =>
          match dict_get k d with
          | Some v => untouched keys' v
          | None => True
          end
      | _ => False
      end
  end.

End SettingsConfig.

(** ** llm/ollama_provider.py: the parts that do not talk to the server *)

Module OllamaProvider.
Import PersonalityEngine SettingsConfig.

(** [config.get('system_prompt', self._get_default_system_prompt())] of
    [__init__]: the default text is taken only when the key is missing. *)
Definition base_system_prompt (config : Dict) (default_system_prompt : string) : Value :=
  default (VStr default_system_prompt) (dict_get "system_prompt" config).

(** One entry of the chat [messages]. *)
Record ChatMessage := mkChat {
  chat_role : string;
  chat_content : string
}.

(** [l.insert(-1, x)]: before the last element, or into the empty list. *)
Definition insert_before_last {A} (x : A) (l : list A) : list A :=
  match l with
  | [] => [x]
  | _ :: _ => take (length l - 1) l ++ x :: drop (length l - 1) l
  end.

(** The assembly of [messages] in [generate_response]: the system and the
    user prompt, then every turn of [history[-10:]] whose role is ['user'] or
    ['assistant'], each put in with [messages.insert(-1, ...)]. *)
Definition chat_messages (system_prompt user_prompt : string)
    (history : list ContextManager.MessageDict) : list ChatMessage :=
  let messages := [mkChat "system" system_prompt; mkChat "user" user_prompt] in
  let recent_history := slice_from (-10) history in
  fold_left
    (λ messages msg,
       if PyStr.mem (ContextManager.d_role msg) ["user"; "assistant"]
       then insert_before_last
              (mkChat (ContextManager.d_role msg) (ContextManager.d_content msg)) messages
       else messages)
    recent_history messages.

(** [c.isspace()] on the ASCII range. *)
Definition is_space (c : ascii) : bool :=
  let n := nat_of_ascii c in
  ((9 <=? n)%nat && (n <=? 13)%nat) || ((28 <=? n)%nat && (n <=? 32)%nat).

(** [s.lstrip()], [s.rstrip()], [s.strip()] *)
Fixpoint lstrip (s : string) : string :=
  match s with
  | EmptyString => EmptyString
  | String c s' => if is_space c then lstrip s' else s
  end.

Fixpoint rstrip (s : string) : string :=
  match s with
  | EmptyString => EmptyString
  | String c s' =>
      match rstrip s' with
      | EmptyString => if is_space c then EmptyString else String c EmptyString
      | String c' r => String c (String c' r)
      end
  end.

Definition strip (s : string) : string := lstrip (rstrip s).

(** [s[n:]] *)
Fixpoint drop_chars (n : nat) (s : string) : string :=
  match n, s with
  | O, _ => s
  | S _, EmptyString => EmptyString
  | S n', String _ s' => drop_chars n' s'
  end.

Definition unwanted_prefixes : list string :=
  ["Here's my response:"; "I would respond:"; "My response:"; "Response:"; "I'd say:"].

(** One round of the loop over [unwanted_prefixes]. *)
Definition remove_prefix (response prefix : string) : string :=
  if String.prefix (PyStr.lower prefix) (PyStr.lower response)
  then strip (drop_chars (String.length prefix) response)
  else response.

(** [response.split('. ')[0]] when the separator occurs, that is, when the
    split has more than one piece. *)
Fixpoint first_sentence (s : string) : option string :=
  match s with
  | EmptyString => None
  | String c s' =>
      if String.prefix ". " s then Some EmptyString
      else option_map (String c) (first_sentence s')
  end.

(** [_post_process_response], with the ['response_length'] of the prompt's
    communication style. *)
Definition _post_process_response (response response_length : string) : string :=
  let response := strip response in
  let response := fold_left remove_prefix unwanted_prefixes response in
  if String.eqb response_length "short" && (200 <? String.length response)%nat then
    match first_sentence response with
    | Some sentence => (sentence ++ ".")%string
    | None => response
    end
  else response.

End OllamaProvider.

(** ** Concrete set-ups for the scenarios *)

Module Fixtures.
Import Datetime DigitalClone.

(** A provider that answers every prompt with the same outcome. *)
Definition constant_provider (g : Generated) : LLMProvider := mkProvider (λ _, g).

(** A started clone on the given settings, with one provider and no platform. *)
Definition running_clone (s : Settings) (provider : LLMProvider) : t :=
  set_is_running (set_llm_provider (init s) provider) true.

(** Noon of the first day. *)
Definition noon : datetime := time_hm 12 0.

Definition world_of (c : t) (draws : Scripted) : World Scripted :=
  mkWorld c noon draws [].

Definition message (sender text : string) : MessageData :=
  mkMessageData (Some sender) (Some text) None.

Definition settings_ignoring (senders : list string) : Settings :=
  mkSettings (personality default_settings) senders (response_triggers default_settings).

Definition settings_without_triggers : Settings :=
  mkSettings (personality default_settings) [] [].

(** A close friend whose profile raises helpfulness by 0.5: 0.8 + 0.5
    clamps to 1. *)
Definition friend_profile : PersonalityEngine.RelationshipProfile :=
  PersonalityEngine.mkProfile "bob" "friend" (9 # 10) None {["helpfulness" := (5 # 10)%Q]} None 0 "".

(** A platform whose [start()] raises, and one that starts and stops cleanly. *)
Definition flaky_platform : Platform := mkPlatform true false.
Definition steady_platform : Platform := mkPlatform false false.

End Fixtures.

(** * Properties *)

(** ** The conversation store *)

Module ContextManagerSpec.
Import Datetime ContextManager.

Lemma lastn_all {A} (n : nat) (l : list A) :
  (length l ≤ n)%nat → lastn n l = l.
Proof.
  intros Hle. unfold lastn.
  replace (length l - n)%nat with 0%nat by lia. reflexivity.
Qed.

Lemma lastn_app_exact {A} (n : nat) (l1 l2 : list A) :
  (n ≤ length l2)%nat → lastn n (l1 ++ l2) = lastn n l2.
Proof.
  intros Hle. unfold lastn. rewrite length_app.
  replace (length l1 + length l2 - n)%nat
    with (length l1 + (length l2 - n))%nat by lia.
  apply drop_app_add.
Qed.

Lemma lastn_snoc_lastn {A} (n : nat) (l : list A) (x : A) :
  lastn n (lastn n l ++ [x]) = lastn n (l ++ [x]).
Proof.
  destruct (decide (length l ≤ n)%nat) as [Hle | Hgt].
  - rewrite (lastn_all n l) by assumption. reflexivity.
  - unfold lastn.
    rewrite !length_app, length_drop. simpl.
    rewrite !skipn_app, length_drop, drop_drop.
    f_equal; f_equal; lia.
Qed.

(** A bounded deque keeps the last [maxlen] of what it would hold unbounded. *)
Lemma deque_append_items (d : deque) (x : ConversationMessage) :
  (length (items d) ≤ maxlen d)%nat →
  items (deque_append d x) = lastn (maxlen d) (items d ++ [x]).
Proof.
  intros Hle. unfold deque_append, lastn. simpl.
  rewrite length_app. simpl.
  destruct (Nat.ltb_spec (maxlen d) (length (items d) + 1)) as [Hlt | Hge].
  - replace (length (items d) + 1 - maxlen d)%nat with 1%nat by lia. reflexivity.
  - replace (length (items d) + 1 - maxlen d)%nat with 0%nat by lia. reflexivity.
Qed.

Lemma deque_append_length (d : deque) (x : ConversationMessage) :
  (length (items d) ≤ maxlen d)%nat →
  (length (items (deque_append d x)) ≤ maxlen d)%nat.
Proof.
  intros Hle. rewrite deque_append_items by assumption.
  unfold lastn. rewrite length_drop, length_app. simpl. lia.
Qed.

Lemma add_message_conversations cm key c r ts now :
  conversations (add_message cm key c r ts now) =
  <[key := deque_append (deque_of cm key) (new_message c r ts now)]> (conversations cm).
Proof.
  unfold add_message, deque_of, conversations_getitem, metadata_getitem.
  destruct (conversations cm !! key) as [d|] eqn:Hd; simpl.
  - destruct (conversation_metadata cm !! key); simpl;
      rewrite lookup_insert_eq; reflexivity.
  - destruct (conversation_metadata cm !! key); simpl;
      rewrite lookup_insert_eq; simpl; rewrite insert_insert_eq; reflexivity.
Qed.

Lemma add_message_max cm key c r ts now :
  max_messages_per_conversation (add_message cm key c r ts now) =
  max_messages_per_conversation cm.
Proof.
  unfold add_message, conversations_getitem, metadata_getitem.
  destruct (conversations cm !! key); simpl;
    destruct (conversation_metadata cm !! key); simpl;
    rewrite lookup_insert_eq; reflexivity.
Qed.

Lemma add_message_window cm key c r ts now :
  context_window_days (add_message cm key c r ts now) = context_window_days cm.
Proof.
  unfold add_message, conversations_getitem, metadata_getitem.
  destruct (conversations cm !! key); simpl;
    destruct (conversation_metadata cm !! key); simpl;
    rewrite lookup_insert_eq; reflexivity.
Qed.

Lemma deque_of_well_formed cm key :
  well_formed cm →
  maxlen (deque_of cm key) = max_messages_per_conversation cm ∧
  (length (items (deque_of cm key)) ≤ maxlen (deque_of cm key))%nat.
Proof.
  intros Hwf. unfold deque_of.
  destruct (conversations cm !! key) as [d|] eqn:Hd; simpl.
  - exact (Hwf key d Hd).
  - split; [reflexivity | lia].
Qed.

Lemma init_well_formed n w : well_formed (init n w).
Proof. intros key d Hd. unfold init in Hd. simpl in Hd. rewrite lookup_empty in Hd. discriminate. Qed.

Lemma add_message_well_formed cm key c r ts now :
  well_formed cm → well_formed (add_message cm key c r ts now).
Proof.
  intros Hwf key' d Hd.
  rewrite add_message_conversations in Hd.
  rewrite add_message_max.
  destruct (deque_of_well_formed cm key Hwf) as [Hmax Hlen].
  destruct (decide (key = key')) as [-> | Hne].
  - rewrite lookup_insert_eq in Hd. injection Hd as <-.
    split; [exact Hmax |].
    apply (deque_append_length _ _ Hlen).
  - rewrite lookup_insert_ne in Hd by assumption.
    exact (Hwf key' d Hd).
Qed.

Lemma stored_deque_of cm key : stored cm key = items (deque_of cm key).
Proof. unfold stored, deque_of. destruct (conversations cm !! key); reflexivity. Qed.

Lemma add_message_stored cm key c r ts now :
  well_formed cm →
  stored (add_message cm key c r ts now) key =
  lastn (max_messages_per_conversation cm) (stored cm key ++ [new_message c r ts now]).
Proof.
  intros Hwf. unfold stored at 1.
  rewrite add_message_conversations, lookup_insert_eq.
  destruct (deque_of_well_formed cm key Hwf) as [Hmax Hlen].
  rewrite deque_append_items by assumption.
  rewrite Hmax, stored_deque_of. reflexivity.
Qed.

Lemma add_messages_cons cm key a reqs :
  add_messages cm key (a :: reqs) =
  add_messages (add_message cm key (a_content a) (a_role a) (a_timestamp a) (a_now a))
               key reqs.
Proof. reflexivity. Qed.

Lemma add_messages_snoc cm key reqs a :
  add_messages cm key (reqs ++ [a]) =
  add_message (add_messages cm key reqs) key
              (a_content a) (a_role a) (a_timestamp a) (a_now a).
Proof. unfold add_messages. rewrite fold_left_app. reflexivity. Qed.

Lemma add_messages_well_formed reqs : ∀ cm key,
  well_formed cm → well_formed (add_messages cm key reqs).
Proof.
  induction reqs as [|a reqs IH]; intros cm key Hwf; [exact Hwf |].
  rewrite add_messages_cons. apply IH, add_message_well_formed, Hwf.
Qed.

Lemma add_messages_max reqs : ∀ cm key,
  max_messages_per_conversation (add_messages cm key reqs) =
  max_messages_per_conversation cm.
Proof.
  induction reqs as [|a reqs IH]; intros cm key; [reflexivity |].
  rewrite add_messages_cons, IH. apply add_message_max.
Qed.

Lemma add_messages_window reqs : ∀ cm key,
  context_window_days (add_messages cm key reqs) = context_window_days cm.
Proof.
  induction reqs as [|a reqs IH]; intros cm key; [reflexivity |].
  rewrite add_messages_cons, IH. apply add_message_window.
Qed.

Lemma stored_length_well_formed cm key :
  well_formed cm → (length (stored cm key) ≤ max_messages_per_conversation cm)%nat.
Proof.
  intros Hwf. rewrite stored_deque_of.
  destruct (deque_of_well_formed cm key Hwf) as [Hmax Hlen]. lia.
Qed.

(** After any run of appends the key holds the last [N] of everything it was
    ever given. *)
Lemma add_messages_stored reqs : ∀ cm key,
  well_formed cm →
  stored (add_messages cm key reqs) key =
  lastn (max_messages_per_conversation cm) (stored cm key ++ map message_of reqs).
Proof.
  induction reqs as [|a reqs IH] using rev_ind; intros cm key Hwf.
  - simpl. rewrite app_nil_r. symmetry.
    apply lastn_all, stored_length_well_formed, Hwf.
  - rewrite add_messages_snoc.
    rewrite add_message_stored by (apply add_messages_well_formed, Hwf).
    rewrite add_messages_max, IH by assumption.
    fold (message_of a).
    rewrite lastn_snoc_lastn, map_app, app_assoc. reflexivity.
Qed.

(** What [get_conversation_history] returns, in terms of the stored messages. *)
Lemma history_of_stored cm key limit now :
  (get_conversation_history cm key limit now).1 =
  map to_dict (apply_limit limit (filter (λ m, in_window cm now m = true) (stored cm key))).
Proof.
  unfold get_conversation_history, conversations_getitem, stored.
  destruct (conversations cm !! key); reflexivity.
Qed.

Lemma filter_all {A} (P : A → Prop) `{∀ x, Decision (P x)} (l : list A) :
  Forall P l → filter P l = l.
Proof.
  induction 1 as [|x l Hx _ IH]; [reflexivity |].
  rewrite filter_cons_True by assumption. f_equal. exact IH.
Qed.

Lemma in_window_add_messages cm key reqs now m :
  in_window (add_messages cm key reqs) now m = in_window cm now m.
Proof. unfold in_window. rewrite add_messages_window. reflexivity. Qed.

Lemma in_window_add_message cm key c r ts now0 now m :
  in_window (add_message cm key c r ts now0) now m = in_window cm now m.
Proof. unfold in_window. rewrite add_message_window. reflexivity. Qed.

Lemma apply_limit_subseteq {A} (limit : option Z) (l : list A) :
  apply_limit limit l ⊆ l.
Proof.
  destruct limit as [n|]; simpl; [| reflexivity].
  destruct (negb (n =? 0) && (n <? Z.of_nat (length l))); [| reflexivity].
  apply subseteq_drop.
Qed.

(** A non-negative limit never cuts the most recent message off. *)
Lemma apply_limit_keeps_last {A} (limit : option Z) (pre : list A) (x : A) :
  from_option (λ n, 0 ≤ n) True limit →
  x ∈ apply_limit limit (pre ++ [x]).
Proof.
  intros Hlimit.
  assert (x ∈ pre ++ [x]) as Hin
    by (apply elem_of_app; right; apply list_elem_of_singleton; reflexivity).
  destruct limit as [n|]; simpl in *; [| exact Hin].
  destruct (negb (n =? 0) && (n <? Z.of_nat (length (pre ++ [x])))) eqn:Hcond;
    [| exact Hin].
  apply andb_prop in Hcond as [Hnz Hlt].
  apply negb_true_iff, Z.eqb_neq in Hnz. apply Z.ltb_lt in Hlt.
  unfold slice_from.
  rewrite length_app in *. simpl in *.
  assert ((- n <? 0) = true) as -> by (apply Z.ltb_lt; lia).
  rewrite drop_app_le by lia.
  apply elem_of_app; right; apply list_elem_of_singleton; reflexivity.
Qed.

(** Reading the history of a key that has a record leaves the store as it
    is. *)
Lemma history_read_frame_existing cm key limit now :
  is_Some (conversations cm !! key) →
  (get_conversation_history cm key limit now).2 = cm.
Proof.
  intros [d Hd]. unfold get_conversation_history, conversations_getitem.
  rewrite Hd. reflexivity.
Qed.

(** Reading never touches the metadata, nor any other key's record. *)
Lemma history_read_frame_metadata cm key limit now :
  conversation_metadata (get_conversation_history cm key limit now).2 =
  conversation_metadata cm.
Proof.
  unfold get_conversation_history, conversations_getitem.
  destruct (conversations cm !! key); reflexivity.
Qed.

Lemma history_read_frame_other cm key key' limit now :
  key ≠ key' →
  conversations (get_conversation_history cm key limit now).2 !! key' =
  conversations cm !! key'.
Proof.
  intros Hne. unfold get_conversation_history, conversations_getitem.
  destruct (conversations cm !! key); simpl; [reflexivity |].
  apply lookup_insert_ne, Hne.
Qed.

(** Well-formedness is an invariant of the read as well. *)
Lemma history_read_well_formed cm key limit now :
  well_formed cm → well_formed (get_conversation_history cm key limit now).2.
Proof.
  intros Hwf. unfold get_conversation_history, conversations_getitem.
  destruct (conversations cm !! key) as [d|] eqn:Hd; simpl; [exact Hwf |].
  intros key' d' Hd'. simpl in Hd'.
  destruct (decide (key = key')) as [-> | Hne].
  - rewrite lookup_insert_eq in Hd'. injection Hd' as <-. simpl. split; [reflexivity | lia].
  - rewrite lookup_insert_ne in Hd' by assumption. exact (Hwf key' d' Hd').
Qed.

(** C3.  With capacity [N], after [N + k] appends to one key whose
    timestamps all lie inside the window, the history of that key is exactly
    the last [N] appended messages, in arrival order (the first [k] are
    gone). *)
Theorem bounded_history (cm : t) (key : string) (reqs : list AddRequest)
    (k : nat) (now : datetime) :
  well_formed cm →
  length reqs = (max_messages_per_conversation cm + k)%nat →
  Forall (λ a, in_window cm now (message_of a) = true) reqs →
  (get_conversation_history (add_messages cm key reqs) key None now).1 =
  map to_dict (drop k (map message_of reqs)).
Proof.
  intros Hwf Hlen Hwin.
  rewrite history_of_stored. simpl.
  rewrite add_messages_stored by assumption.
  rewrite lastn_app_exact by (rewrite length_map; lia).
  unfold lastn. rewrite length_map, Hlen.
  replace (max_messages_per_conversation cm + k - max_messages_per_conversation cm)%nat
    with k by lia.
  f_equal. apply filter_all, Forall_drop, Forall_map.
  eapply Forall_impl; [exact Hwin |].
  intros a Ha. simpl. rewrite in_window_add_messages. exact Ha.
Qed.

(** Scenario A: capacity 3, messages M1..M4 appended to key K. *)
Lemma bounded_history_witness :
  (get_conversation_history
     (add_messages (init 3 30) "K"
        [mkAdd "M1" "user" (Some 1000) 1000; mkAdd "M2" "assistant" (Some 1001) 1001;
         mkAdd "M3" "user" (Some 1002) 1002; mkAdd "M4" "assistant" (Some 1003) 1003])
     "K" None 2000).1 =
  [mkDict "M2" "assistant" 1001; mkDict "M3" "user" 1002; mkDict "M4" "assistant" 1003].
Proof.
  apply (bounded_history (init 3 30) "K"
           [mkAdd "M1" "user" (Some 1000) 1000; mkAdd "M2" "assistant" (Some 1001) 1001;
            mkAdd "M3" "user" (Some 1002) 1002; mkAdd "M4" "assistant" (Some 1003) 1003]
           1 2000).
  - apply init_well_formed.
  - reflexivity.
  - repeat constructor.
Defined.

(** C4.  On a fresh store, reading the history of a key that has no record
    returns the empty list and leaves a new, empty record for that key in
    [conversations]: the store is not the one it was, and the conversation
    count reported by the statistics goes from 0 to 1. *)
Theorem history_read_creates_record :
  let cm := init 100 30 in
  let after := get_conversation_history cm "whatsapp:alice" None 0 in
  after.1 = [] ∧
  conversations cm !! "whatsapp:alice" = None ∧
  conversations after.2 !! "whatsapp:alice" = Some (deque_new 100) ∧
  after.2 ≠ cm ∧
  total_conversations cm = 0%nat ∧
  total_conversations after.2 = 1%nat.
Proof.
  simpl. unfold get_conversation_history, conversations_getitem, init. simpl.
  rewrite lookup_empty. simpl.
  split; [reflexivity |].
  split; [reflexivity |].
  split; [apply lookup_insert_eq |].
  split; [| split].
  - intros Heq. apply (f_equal conversations) in Heq. simpl in Heq.
    apply (f_equal (λ m, m !! "whatsapp:alice")) in Heq.
    rewrite lookup_insert_eq, lookup_empty in Heq. discriminate.
  - reflexivity.
  - unfold total_conversations. simpl.
    rewrite map_size_insert_None by apply lookup_empty.
    rewrite map_size_empty. reflexivity.
Qed.

(** C7.  A message appended with timestamp [now - (windowDays + 1) days] is
    not in the history read at [now], whatever the limit; with a capacity of
    at least one and a non-negative window, a message appended with timestamp
    [now] is in the history read at [now], for every non-negative limit. *)
Theorem time_window_filtering (cm : t) (key c r : string) (now0 now : datetime) :
  well_formed cm →
  (0 < max_messages_per_conversation cm)%nat →
  0 ≤ context_window_days cm →
  let old := now - timedelta_days (context_window_days cm + 1) in
  (∀ limit,
     to_dict (new_message c r (Some old) now0) ∉
     (get_conversation_history (add_message cm key c r (Some old) now0) key limit now).1)
  ∧
  (∀ limit, from_option (λ n, 0 ≤ n) True limit →
     to_dict (new_message c r (Some now) now0) ∈
     (get_conversation_history (add_message cm key c r (Some now) now0) key limit now).1).
Proof.
  intros Hwf Hcap Hwindow old. split.
  - intros limit Hin.
    rewrite history_of_stored in Hin.
    apply list_elem_of_In, in_map_iff in Hin as (m & Hm & Hin).
    apply list_elem_of_In, apply_limit_subseteq, list_elem_of_filter in Hin as [Hw _].
    rewrite in_window_add_message in Hw.
    unfold in_window in Hw. apply Z.leb_le in Hw.
    apply (f_equal d_timestamp) in Hm. simpl in Hm. rewrite Hm in Hw.
    unfold old, timedelta_days, microseconds_per_day in Hw. lia.
  - intros limit Hlimit.
    rewrite history_of_stored.
    apply list_elem_of_In, in_map, list_elem_of_In.
    rewrite add_message_stored by assumption.
    assert (lastn (max_messages_per_conversation cm)
              (stored cm key ++ [new_message c r (Some now) now0]) =
            lastn (max_messages_per_conversation cm - 1) (stored cm key)
              ++ [new_message c r (Some now) now0]) as ->.
    { unfold lastn. rewrite length_app. simpl.
      rewrite drop_app_le by lia. f_equal. f_equal. lia. }
    rewrite filter_app, filter_cons_True, filter_nil.
    + apply apply_limit_keeps_last, Hlimit.
    + rewrite in_window_add_message. unfold in_window. simpl.
      apply Z.leb_le. unfold timedelta_days, microseconds_per_day. lia.
Qed.

Lemma time_window_filtering_witness :
  (to_dict (new_message "late" "user" (Some (100 - timedelta_days 31)) 0) ∉
     (get_conversation_history
        (add_message (init 100 30) "K" "late" "user" (Some (100 - timedelta_days 31)) 0)
        "K" None 100).1)
  ∧
  (to_dict (new_message "fresh" "user" (Some 100) 0) ∈
     (get_conversation_history
        (add_message (init 100 30) "K" "fresh" "user" (Some 100) 0) "K" None 100).1).
Proof.
  assert (well_formed (init 100 30)) as Hwf by apply init_well_formed.
  assert (0 < max_messages_per_conversation (init 100 30))%nat as Hcap by (simpl; lia).
  assert (0 ≤ context_window_days (init 100 30)) as Hwin by (simpl; lia).
  split.
  - exact (proj1 (time_window_filtering (init 100 30) "K" "late" "user" 0 100
                    Hwf Hcap Hwin) None).
  - exact (proj2 (time_window_filtering (init 100 30) "K" "fresh" "user" 0 100
                    Hwf Hcap Hwin) None I).
Defined.

(** C9.  When a conversation has at least one message inside the window, a
    history read with [limit = 0] returns every in-window message, the same
    list as a read with no limit, and not the empty list. *)
Theorem limit_zero_returns_all (cm : t) (key : string) (now : datetime) :
  (0 < length (filter (λ m, in_window cm now m = true) (stored cm key)))%nat →
  (get_conversation_history cm key (Some 0) now).1 =
    map to_dict (filter (λ m, in_window cm now m = true) (stored cm key)) ∧
  (get_conversation_history cm key (Some 0) now).1 =
    (get_conversation_history cm key None now).1 ∧
  (get_conversation_history cm key (Some 0) now).1 ≠ [].
Proof.
  intros Hpos. rewrite !history_of_stored. simpl.
  repeat split.
  intros Hnil. apply (f_equal length) in Hnil.
  rewrite length_map in Hnil. simpl in Hnil. lia.
Qed.

Lemma limit_zero_returns_all_witness :
  (get_conversation_history
     (add_messages (init 100 30) "K"
        [mkAdd "hi" "user" (Some 10) 10; mkAdd "hello" "assistant" (Some 11) 11])
     "K" (Some 0) 20).1 ≠ [].
Proof.
  apply (limit_zero_returns_all
           (add_messages (init 100 30) "K"
              [mkAdd "hi" "user" (Some 10) 10; mkAdd "hello" "assistant" (Some 11) 11])
           "K" 20).
  vm_compute. lia.
Defined.

End ContextManagerSpec.

(** ** The personality engine *)

Module PersonalityEngineSpec.
Import Datetime PyFloat PersonalityEngine Fixtures.

Lemma ltb_reflect (x y : Q) : reflect (x < y)%Q (ltb x y).
Proof.
  unfold ltb. destruct (Qle_bool y x) eqn:Hle; simpl; constructor.
  - apply Qle_bool_iff in Hle. apply Qle_not_lt, Hle.
  - apply Qnot_le_lt. intros Hyx. apply Qle_bool_iff in Hyx. congruence.
Qed.

Ltac case_ltb :=
  repeat match goal with
         | |- context [ltb ?x ?y] => destruct (ltb_reflect x y)
         end.

(** The code's [max(0.0, min(1.0, x))] is the clamp of the specification. *)
Lemma max_min_is_clamp (x : Q) : (py_max 0 (py_min 1 x) == clamp x 0 1)%Q.
Proof.
  unfold py_max, py_min, clamp.
  destruct (ltb_reflect x 1); case_ltb; lra.
Qed.

Lemma clamp_bounds (x : Q) : (0 <= clamp x 0 1 <= 1)%Q.
Proof. unfold clamp. case_ltb; lra. Qed.

(** The active-traits dict has exactly the keys of the trait table. *)
Lemma dict_get_active_traits pe relationship trait_name :
  dict_get trait_name (_get_active_traits pe relationship) =
  effective_weight relationship trait_name <$> dict_get trait_name (traits pe).
Proof.
  unfold _get_active_traits.
  induction (traits pe) as [|[k v] tr IH]; [reflexivity |].
  simpl. destruct (String.eqb_spec k trait_name) as [-> | Hne]; [reflexivity | exact IH].
Qed.

(** C8.  For a configured trait, the weight that [_get_active_traits] records
    for a sender is [clamp(base + adjustment, 0, 1)], hence within [0, 1],
    when the sender's profile adjusts that trait; with no profile, or no
    adjustment for the trait, it is the base weight itself. *)
Theorem effective_trait_weight (pe : t) (relationship : option RelationshipProfile)
    (trait_name : string) (trait : PersonalityTrait) :
  dict_get trait_name (traits pe) = Some trait →
  ∃ w : Q,
    dict_get trait_name (_get_active_traits pe relationship) = Some w ∧
    match relationship ≫= (λ r, personality_adjustments r !! trait_name) with
    | Some adjustment =>
        (w == clamp (weight trait + adjustment) 0 1)%Q ∧ (0 <= w <= 1)%Q
    | None => w = weight trait
    end.
Proof.
  intros Hget.
  exists (effective_weight relationship trait_name trait). split.
  - rewrite dict_get_active_traits, Hget. reflexivity.
  - unfold effective_weight.
    destruct relationship as [r|]; simpl; [| reflexivity].
    destruct (personality_adjustments r !! trait_name) as [adjustment|]; [| reflexivity].
    split.
    + apply max_min_is_clamp.
    + rewrite max_min_is_clamp. apply clamp_bounds.
Qed.

Lemma effective_trait_weight_witness :
  ∃ w : Q,
    dict_get "helpfulness" (_get_active_traits (init (personality default_settings))
                                               (Some friend_profile)) = Some w ∧
    (w == 1)%Q ∧ (0 <= w <= 1)%Q.
Proof.
  destruct (effective_trait_weight (init (personality default_settings))
              (Some friend_profile) "helpfulness"
              (mkTrait "helpfulness" (8 # 10)
                 "Tendency to help others and provide useful information"
                 ["Let me help you with that"; "Here's what I would suggest"]
                 ["work"; "professional"; "support"]))
    as (w & Hw & Hclamp); [reflexivity |].
  exists w. split; [exact Hw |].
  change (Some friend_profile ≫= (λ r, personality_adjustments r !! "helpfulness"))
    with (Some (5 # 10)%Q) in Hclamp.
  destruct Hclamp as [Heq Hbounds]. split; [| exact Hbounds].
  rewrite Heq. reflexivity.
Defined.

(** C10.  For a sender with no relationship profile,
    [update_interaction_history] returns the engine as it was, whatever the
    message type: no profile appears for the sender, so no last interaction
    and no interaction count is recorded. *)
Theorem update_interaction_history_unknown_sender (pe : t)
    (sender message_type : string) (now : datetime) :
  relationships pe !! sender = None →
  update_interaction_history pe sender message_type now = pe ∧
  relationships (update_interaction_history pe sender message_type now) !! sender = None.
Proof.
  intros Hnone. unfold update_interaction_history. rewrite Hnone. split; [reflexivity | exact Hnone].
Qed.

Lemma update_interaction_history_unknown_sender_witness :
  update_interaction_history (init (personality default_settings)) "stranger" "received" 42
  = init (personality default_settings).
Proof.
  apply (update_interaction_history_unknown_sender
           (init (personality default_settings)) "stranger" "received" 42).
  reflexivity.
Defined.

End PersonalityEngineSpec.

(** ** The clone *)

Module DigitalCloneSpec.
Import Datetime PyFloat DigitalClone Fixtures.

Section WithRandom.
Context {G : Type} `{RandomSource G}.

(** [add_message] on the clone's store changes nothing else. *)
Lemma cm_add_message_spec (key c r : string) (w : World G) :
  ∃ cm, cm_add_message key c r w =
        (Return tt, with_clone w (set_context_manager (clone w) cm)).
Proof. eexists. reflexivity. Qed.

(** The decision taken by [_should_respond] for a sender that is not
    ignored. *)
Lemma should_respond_gate (platform_name : string) (md : MessageData) (w : World G) :
  default "" (md_sender md) ∉ ignore_senders (settings (clone w)) →
  _should_respond platform_name md w =
    if PyStr.any_in (response_triggers (settings (clone w)))
                    (PyStr.lower (default "" (md_content md)))
    then (Return true, w)
    else pe_should_respond md w.
Proof.
  intros Hnot. unfold _should_respond, PyStr.mem.
  rewrite bool_decide_eq_false_2 by exact Hnot. reflexivity.
Qed.

Lemma should_respond_ignored (platform_name : string) (md : MessageData) (w : World G) :
  default "" (md_sender md) ∈ ignore_senders (settings (clone w)) →
  _should_respond platform_name md w = (Return false, w).
Proof.
  intros Hin. unfold _should_respond, PyStr.mem.
  rewrite bool_decide_eq_true_2 by exact Hin. reflexivity.
Qed.

(** The engine's probability on the scenario of the specification. *)
Lemma engine_scenario (pe : PersonalityEngine.t) (md : MessageData) (now : datetime) (g : G) :
  (PersonalityEngine.response_probability pe == 8 # 10)%Q →
  PersonalityEngine.relationships pe !! default "" (md_sender md) = None →
  PyStr.any_in ["help"; "question"; "urgent"; "please"]
               (PyStr.lower (default "" (md_content md))) = true →
  PersonalityEngine.active_hours_start pe ≤ time_of_day now
    ≤ PersonalityEngine.active_hours_end pe →
  ((random g).1 == 99 # 100)%Q →
  (PersonalityEngine.response_threshold pe md now == 96 # 100)%Q ∧
  (PersonalityEngine.should_respond pe md now g).1 = false.
Proof.
  intros Hp Hrel Htrig [Hstart Hend] Hdraw.
  assert (PersonalityEngine.response_threshold pe md now
          = py_min 1 (PersonalityEngine.response_probability pe * (12 # 10))%Q) as Hthr.
  { unfold PersonalityEngine.response_threshold.
    rewrite Hrel, Htrig.
    apply Z.leb_le in Hstart, Hend. rewrite Hstart, Hend. reflexivity. }
  assert (PersonalityEngine.response_threshold pe md now == 96 # 100)%Q as Heq.
  { rewrite Hthr. unfold py_min.
    destruct (PersonalityEngineSpec.ltb_reflect
                (PersonalityEngine.response_probability pe * (12 # 10)) 1); lra. }
  split; [exact Heq |].
  unfold PersonalityEngine.should_respond.
  destruct (random g) as [draw g'] eqn:Hr. simpl in *.
  destruct (PersonalityEngineSpec.ltb_reflect draw
              (PersonalityEngine.response_threshold pe md now)); [lra | reflexivity].
Qed.

(** [_should_respond] never touches the clone or the clock, and never raises. *)
Lemma should_respond_frame (platform_name : string) (md : MessageData) (w : World G) :
  ∃ b w', _should_respond platform_name md w = (Return b, w') ∧
          clone w' = clone w ∧ now w' = now w.
Proof.
  unfold _should_respond.
  destruct (PyStr.mem _ _); [exists false, w; done |].
  destruct (PyStr.any_in _ _); [exists true, w; done |].
  unfold pe_should_respond.
  destruct (PersonalityEngine.should_respond _ _ _ _) as [b g].
  eexists _, _. split; [reflexivity | done].
Qed.

(** Building the prompt always succeeds and keeps the provider bound. *)
Lemma build_prompt_total (platform_name : string) (md : MessageData) (w : World G) :
  ∃ prompt w', build_prompt platform_name md w = (Return prompt, w') ∧
               llm_provider (clone w') = llm_provider (clone w) ∧
               now w' = now w.
Proof.
  unfold build_prompt, bind, pe_get_context_for_sender, cm_get_conversation_history.
  destruct (PersonalityEngine.get_context_for_sender _ _ _) as [context g].
  simpl.
  destruct (ContextManager.get_conversation_history _ _ _ _) as [history cm].
  eexists _, _. split; [reflexivity | done].
Qed.

(** C1 (amended).  For a sender that is not on the ignore list, the decision
    is [True] outright when the lower-cased content contains a configured
    response trigger, and is the engine's [should_respond] otherwise.  In the
    engine, with base probability 0.8, no relationship profile, one of its
    trigger words in the content, a time inside the active hours and a draw of
    0.99, the probability is 0.8 * 1.2 = 0.96 and the verdict is [False]; when
    no configured trigger matches, the pipeline then produces no response. *)
Theorem respond_decision (w : World G) (platform_name : string) (md : MessageData) :
  default "" (md_sender md) ∉ ignore_senders (settings (clone w)) →
  (_should_respond platform_name md w =
     if PyStr.any_in (response_triggers (settings (clone w)))
                     (PyStr.lower (default "" (md_content md)))
     then (Return true, w)
     else pe_should_respond md w)
  ∧
  ((PersonalityEngine.response_probability (personality_engine (clone w)) == 8 # 10)%Q →
   PersonalityEngine.relationships (personality_engine (clone w))
     !! default "" (md_sender md) = None →
   PyStr.any_in ["help"; "question"; "urgent"; "please"]
                (PyStr.lower (default "" (md_content md))) = true →
   PersonalityEngine.active_hours_start (personality_engine (clone w))
     ≤ time_of_day (now w)
     ≤ PersonalityEngine.active_hours_end (personality_engine (clone w)) →
   ((random (rng w)).1 == 99 # 100)%Q →
   (PersonalityEngine.response_threshold (personality_engine (clone w)) md (now w)
      == 96 # 100)%Q ∧
   (PersonalityEngine.should_respond (personality_engine (clone w)) md (now w) (rng w)).1
     = false ∧
   (PyStr.any_in (response_triggers (settings (clone w)))
                 (PyStr.lower (default "" (md_content md))) = false →
    (process_message platform_name md w).1 = Return None)).
Proof.
  intros Hnot. split; [apply should_respond_gate, Hnot |].
  intros Hp Hrel Htrig Hhours Hdraw.
  destruct (engine_scenario _ md (now w) (rng w) Hp Hrel Htrig Hhours Hdraw)
    as [Hthr Hverdict].
  split; [exact Hthr |]. split; [exact Hverdict |].
  intros Hnone. unfold process_message.
  destruct (is_running (clone w)); [| reflexivity]. simpl.
  unfold try_except, mbind, M_bind, bind.
  destruct (cm_add_message_spec
              (platform_name +:+ ":" +:+ default "unknown" (md_sender md))
              (default "" (md_content md)) "user" w) as [cm ->].
  rewrite should_respond_gate by exact Hnot.
  simpl. rewrite Hnone.
  unfold pe_should_respond. simpl.
  destruct (PersonalityEngine.should_respond _ _ _ _) as [b g]. simpl in Hverdict.
  subst b. reflexivity.
Qed.

(** C2.  When the sender of a message is on the ignore list,
    [process_message] returns [None] without any call to the engine's
    [should_respond] or to the provider, and without a draw from the random
    source, whatever the content. *)
Theorem ignored_sender_short_circuit (w : World G) (platform_name : string)
    (md : MessageData) (sender : string) :
  md_sender md = Some sender →
  sender ∈ ignore_senders (settings (clone w)) →
  ∃ w', process_message platform_name md w = (Return None, w') ∧
        calls w' = calls w ∧ rng w' = rng w.
Proof.
  intros Hs Hin. unfold process_message.
  destruct (is_running (clone w)); simpl.
  - unfold try_except, mbind, M_bind, bind.
    destruct (cm_add_message_spec
                (platform_name +:+ ":" +:+ default "unknown" (md_sender md))
                (default "" (md_content md)) "user" w) as [cm ->].
    rewrite should_respond_ignored by (rewrite Hs; exact Hin).
    simpl. eexists. split; [reflexivity | done].
  - exists w. done.
Qed.

(** C5 (amended).  Once the pipeline has decided to respond and built the
    prompt, the provider's result settles the rest: [None] or an exception
    gives [None] and no Assistant message; the empty string is handed back
    and no Assistant message is appended; any non-empty string, a
    whitespace-only one included, is appended as an Assistant message and
    returned. *)
Theorem generated_reply_recorded (w : World G) (platform_name : string)
    (md : MessageData) (provider : LLMProvider) (w1 w2 : World G) (prompt : PromptData) :
  let key := platform_name +:+ ":" +:+ default "unknown" (md_sender md) in
  is_running (clone w) = true →
  llm_provider (clone w) = Some provider →
  bind (cm_add_message key (default "" (md_content md)) "user")
       (λ _, _should_respond platform_name md) w = (Return true, w1) →
  build_prompt platform_name md w1 = (Return prompt, w2) →
  process_message platform_name md w =
    let w3 := log w2 (CallGenerateResponse prompt) in
    match generate_response provider prompt with
    | Text s =>
        if String.eqb s "" then (Return (Some s), w3)
        else (Return (Some s),
              with_clone w3
                (set_context_manager (clone w3)
                   (ContextManager.add_message (context_manager (clone w3))
                      key s "assistant" None (now w3))))
    | NoText => (Return None, w3)
    | Raises => (Return None, w3)
    end.
Proof.
  intros key Hrun Hprov Hdecide Hprompt.
  destruct (cm_add_message_spec key (default "" (md_content md)) "user" w)
    as [cm Hadd].
  unfold bind in Hdecide. rewrite Hadd in Hdecide.
  assert (llm_provider (clone w2) = Some provider) as Hprov2.
  { destruct (build_prompt_total platform_name md w1) as (p' & w' & Hb & Hllm & _).
    rewrite Hprompt in Hb. injection Hb as <- <-. rewrite Hllm.
    destruct (should_respond_frame platform_name md
                (with_clone w (set_context_manager (clone w) cm)))
      as (b & w' & Hsr & Hclone & _).
    rewrite Hsr in Hdecide. injection Hdecide as -> <-.
    rewrite Hclone. exact Hprov. }
  unfold process_message. rewrite Hrun. simpl.
  unfold try_except, mbind, M_bind.
  unfold bind at 1. fold key. rewrite Hadd.
  unfold bind at 1. rewrite Hdecide. simpl.
  unfold build_prompt in Hprompt. fold key in Hprompt.
  unfold bind at 1. unfold bind at 1 in Hprompt.
  destruct (pe_get_context_for_sender _ w1) as [[context | e] wa]; [| discriminate].
  unfold bind at 1. unfold bind at 1 in Hprompt.
  destruct (cm_get_conversation_history key wa) as [[history | e] wb]; [| discriminate].
  injection Hprompt as <- <-.
  unfold bind at 1. unfold llm_generate_response at 1. rewrite Hprov2.
  destruct (generate_response provider _) as [s | |]; try reflexivity.
  unfold truthy. destruct (String.eqb s ""); reflexivity.
Qed.

(** C6 (amended).  [start] on a clone that is already running returns
    normally and changes nothing; on a clone that is not running it raises
    [ValueError] when no provider is bound, and otherwise marks the clone as
    running and starts the platforms, returning normally when none of them
    fails.  After any normal return the clone is running. *)
Theorem start_outcomes (w : World G) :
  (is_running (clone w) = true → start w = (Return tt, w)) ∧
  (is_running (clone w) = false → llm_provider (clone w) = None →
   start w = (Raise (ValueError "LLM Provider must be set before starting"), w)) ∧
  (is_running (clone w) = false → is_Some (llm_provider (clone w)) →
   Forall (λ p, start_raises p.2 = false) (platforms (clone w)) →
   ∃ w', start w = (Return tt, w') ∧ is_running (clone w') = true) ∧
  (∀ w', start w = (Return tt, w') → is_running (clone w') = true).
Proof.
  assert (∀ (ps : list (string * Platform)) (w0 : World G),
            clone (fold_left (λ w '(name, _), log w (CallPlatformStart name)) ps w0)
            = clone w0) as Hlog.
  { induction ps as [|[name p] ps IH]; intros w0; [reflexivity |].
    simpl. rewrite IH. reflexivity. }
  unfold start. repeat split.
  - intros ->. reflexivity.
  - intros -> ->. reflexivity.
  - intros -> [provider ->] Hok. unfold start_platforms. simpl.
    assert (List.find (λ '(_, p), start_raises p) (platforms (clone w)) = None) as ->.
    { induction Hok as [|[name p] ps Hp _ IH]; [reflexivity |].
      simpl in *. rewrite Hp. exact IH. }
    eexists. split; [reflexivity |]. rewrite Hlog. reflexivity.
  - intros w'. destruct (is_running (clone w)) eqn:Hrun.
    + intros [= <-]. exact Hrun.
    + destruct (llm_provider (clone w)); [| discriminate].
      unfold start_platforms. simpl.
      destruct (List.find _ _) as [[name p]|]; [discriminate |].
      intros [= <-]. rewrite Hlog. reflexivity.
Qed.

End WithRandom.

(** *** The scenarios, run on the scripted random source *)

(** C1, as stated, fails: with the default settings, "please help" from a
    sender that is not ignored gets a response although the engine, on a draw
    of 0.99 against a probability of 0.96, says no. *)
Lemma trigger_word_forces_response :
  let w := world_of (running_clone default_settings (constant_provider (Text "ok")))
                    [(99 # 100)%Q] in
  let md := message "alice" "please help" in
  ("alice" ∉ ignore_senders (settings (clone w))) ∧
  (PersonalityEngine.response_threshold (personality_engine (clone w)) md (now w)
     == 96 # 100)%Q ∧
  (PersonalityEngine.should_respond (personality_engine (clone w)) md (now w) (rng w)).1
    = false ∧
  (_should_respond "whatsapp" md w).1 = Return true ∧
  (process_message "whatsapp" md w).1 = Return (Some "ok").
Proof.
  simpl. split; [apply not_elem_of_nil |].
  split; [reflexivity |].
  repeat split; vm_compute; reflexivity.
Qed.

Lemma respond_decision_witness :
  (process_message "whatsapp" (message "alice" "please help")
     (world_of (running_clone settings_without_triggers (constant_provider (Text "ok")))
               [(99 # 100)%Q])).1 = Return None.
Proof.
  destruct (respond_decision
              (world_of (running_clone settings_without_triggers
                           (constant_provider (Text "ok"))) [(99 # 100)%Q])
              "whatsapp" (message "alice" "please help"))
    as [_ Hscenario]; [apply not_elem_of_nil |].
  destruct Hscenario as (_ & _ & Hpipeline).
  - reflexivity.
  - reflexivity.
  - reflexivity.
  - split; apply Z.leb_le; reflexivity.
  - reflexivity.
  - apply Hpipeline. reflexivity.
Defined.

(** Scenario B: an ignored sender writes "please help urgent". *)
Lemma ignored_sender_short_circuit_witness :
  ∃ w',
    process_message "whatsapp" (message "spammer" "please help urgent")
      (world_of (running_clone (settings_ignoring ["spammer"])
                   (constant_provider (Text "ok"))) [(1 # 2)%Q])
    = (Return None, w') ∧
    calls w' = [] ∧ rng w' = [(1 # 2)%Q].
Proof.
  apply (ignored_sender_short_circuit
           (world_of (running_clone (settings_ignoring ["spammer"])
                        (constant_provider (Text "ok"))) [(1 # 2)%Q])
           "whatsapp" (message "spammer" "please help urgent") "spammer").
  - reflexivity.
  - constructor.
Defined.

(** C5, as stated, fails: a whitespace-only reply is appended as an Assistant
    message and returned for sending. *)
Lemma whitespace_reply_is_sent :
  let w := world_of (running_clone default_settings (constant_provider (Text "   "))) [] in
  let r := process_message "whatsapp" (message "alice" "help") w in
  r.1 = Return (Some "   ") ∧
  ContextManager.stored (context_manager (clone r.2)) "whatsapp:alice" =
    [ContextManager.mkMessage "help" "user" noon;
     ContextManager.mkMessage "   " "assistant" noon].
Proof. split; vm_compute; reflexivity. Qed.

Lemma generated_reply_recorded_witness :
  (process_message "whatsapp" (message "alice" "help")
     (world_of (running_clone default_settings (constant_provider (Text ""))) [])).1
  = Return (Some "") ∧
  ContextManager.stored
    (context_manager (clone
       (process_message "whatsapp" (message "alice" "help")
          (world_of (running_clone default_settings (constant_provider (Text ""))) [])).2))
    "whatsapp:alice"
  = [ContextManager.mkMessage "help" "user" noon].
Proof.
  erewrite (generated_reply_recorded
              (world_of (running_clone default_settings (constant_provider (Text ""))) [])
              "whatsapp" (message "alice" "help") (constant_provider (Text "")));
    cycle 1.
  - reflexivity.
  - reflexivity.
  - vm_compute. reflexivity.
  - vm_compute. reflexivity.
  - split; vm_compute; reflexivity.
Defined.

(** C6, as stated, fails: [start] on a running clone raises nothing, with or
    without a provider. *)
Lemma start_while_running_returns_normally :
  let w := world_of (running_clone default_settings (constant_provider NoText)) [] in
  let w_no_provider := world_of (set_is_running (init default_settings) true) [] in
  is_running (clone w) = true ∧ start w = (Return tt, w) ∧
  llm_provider (clone w_no_provider) = None ∧
  start w_no_provider = (Return tt, w_no_provider).
Proof. repeat split. Qed.

Lemma start_outcomes_witness :
  ∃ w',
    start (world_of (set_llm_provider (init default_settings) (constant_provider NoText)) [])
    = (Return tt, w') ∧
    is_running (clone w') = true.
Proof.
  apply (start_outcomes
           (world_of (set_llm_provider (init default_settings) (constant_provider NoText)) [])).
  - reflexivity.
  - eexists. reflexivity.
  - constructor.
Defined.

End DigitalCloneSpec.

(** ** More of the conversation store: metadata, clean-up, activity, summary *)

Module ContextManagerExtra.
Import Datetime ContextManager ContextManagerSpec.

Lemma add_message_metadata_eq cm key c r ts now :
  conversation_metadata (add_message cm key c r ts now) =
  <[key := mkMetadata
             (Some (default now ts))
             (Some (length (items (deque_append (deque_of cm key) (new_message c r ts now)))))
             (Some (default (default now ts) (first_stamp cm key)))]>
    (conversation_metadata cm).
Proof.
  unfold add_message, first_stamp, deque_of, conversations_getitem, metadata_getitem.
  destruct (conversations cm !! key) as [d|] eqn:Hd; simpl;
    destruct (conversation_metadata cm !! key) as [md|] eqn:Hmd; simpl;
    rewrite lookup_insert_eq; simpl;
    try (destruct (first_message md)); simpl;
    rewrite ?insert_insert_eq; reflexivity.
Qed.

Lemma add_message_first_stamp cm key c r ts now :
  first_stamp (add_message cm key c r ts now) key =
  Some (default (default now ts) (first_stamp cm key)).
Proof. unfold first_stamp. rewrite add_message_metadata_eq, lookup_insert_eq. reflexivity. Qed.

Lemma add_message_last_stamp cm key c r ts now :
  last_stamp (add_message cm key c r ts now) key = Some (default now ts).
Proof. unfold last_stamp. rewrite add_message_metadata_eq, lookup_insert_eq. reflexivity. Qed.

Lemma last_cons_default {A} (b : A) (l : list A) (a : A) :
  List.last (b :: l) a = List.last l b.
Proof.
  revert a b. induction l as [|x l IH]; intros a b; [reflexivity |].
  change (List.last (b :: x :: l) a) with (List.last (x :: l) a).
  rewrite (IH a x), (IH b x). reflexivity.
Qed.

(** X1.  After [add_message] the metadata of the key records the timestamp of
    the appended message as last activity and, as message count, the number
    of messages the bounded deque retains, which never exceeds the
    capacity. *)
Theorem add_message_metadata (cm : t) (key c r : string) (ts : option datetime)
    (now : datetime) :
  well_formed cm →
  ∃ md,
    conversation_metadata (add_message cm key c r ts now) !! key = Some md ∧
    last_activity md = Some (default now ts) ∧
    message_count md = Some (length (stored (add_message cm key c r ts now) key)) ∧
    (length (stored (add_message cm key c r ts now) key)
       ≤ max_messages_per_conversation cm)%nat.
Proof.
  intros Hwf.
  rewrite add_message_metadata_eq, lookup_insert_eq.
  eexists. split; [reflexivity |]. split; [reflexivity |].
  assert (stored (add_message cm key c r ts now) key =
          items (deque_append (deque_of cm key) (new_message c r ts now))) as Hst.
  { unfold stored. rewrite add_message_conversations, lookup_insert_eq. reflexivity. }
  split; [simpl; rewrite Hst; reflexivity |].
  rewrite <- (add_message_max cm key c r ts now).
  apply stored_length_well_formed, add_message_well_formed, Hwf.
Qed.

Lemma add_message_metadata_witness :
  ∃ md,
    conversation_metadata
      (add_messages (init 2 30) "K"
         [mkAdd "a" "user" (Some 5) 5; mkAdd "b" "user" (Some 6) 6;
          mkAdd "c" "user" (Some 7) 7]) !! "K" = Some md ∧
    last_activity md = Some 7 ∧ message_count md = Some 2%nat.
Proof.
  destruct (add_message_metadata
              (add_messages (init 2 30) "K"
                 [mkAdd "a" "user" (Some 5) 5; mkAdd "b" "user" (Some 6) 6])
              "K" "c" "user" (Some 7) 7) as (md & Hmd & Hla & Hcount & _).
  - apply add_messages_well_formed, init_well_formed.
  - exists md. split; [exact Hmd |]. split; [exact Hla | exact Hcount].
Defined.

(** X2.  On a key that has no metadata yet, a run of appends leaves the
    timestamp of the very first appended message as ['first_message'], however
    many messages were evicted since, and the timestamp of the last one as
    ['last_activity']. *)
Theorem first_message_is_first_ever (cm : t) (key : string) (a : AddRequest)
    (reqs : list AddRequest) :
  conversation_metadata cm !! key = None →
  first_stamp (add_messages cm key (a :: reqs)) key = Some (timestamp (message_of a)) ∧
  last_stamp (add_messages cm key (a :: reqs)) key
    = Some (timestamp (message_of (List.last reqs a))).
Proof.
  intros Hnone.
  assert (∀ reqs cm a,
            first_stamp (add_messages cm key (a :: reqs)) key =
            Some (default (timestamp (message_of a)) (first_stamp cm key))) as Hfirst.
  { clear. induction reqs as [|b reqs IH]; intros cm a.
    - apply add_message_first_stamp.
    - rewrite add_messages_cons, IH, add_message_first_stamp. reflexivity. }
  split.
  - rewrite Hfirst. unfold first_stamp. rewrite Hnone. reflexivity.
  - clear Hnone Hfirst. revert cm a.
    induction reqs as [|b reqs IH]; intros cm a.
    + apply add_message_last_stamp.
    + rewrite add_messages_cons, last_cons_default. apply IH.
Qed.

Lemma first_message_is_first_ever_witness :
  first_stamp (add_messages (init 2 30) "K"
                 [mkAdd "a" "user" (Some 5) 5; mkAdd "b" "user" (Some 6) 6;
                  mkAdd "c" "user" (Some 7) 7]) "K" = Some 5 ∧
  last_stamp (add_messages (init 2 30) "K"
                [mkAdd "a" "user" (Some 5) 5; mkAdd "b" "user" (Some 6) 6;
                 mkAdd "c" "user" (Some 7) 7]) "K" = Some 7.
Proof.
  apply (first_message_is_first_ever (init 2 30) "K" (mkAdd "a" "user" (Some 5) 5)
           [mkAdd "b" "user" (Some 6) 6; mkAdd "c" "user" (Some 7) 7]).
  reflexivity.
Defined.

(** X3.  [add_message] on one key leaves the record and the metadata of every
    other key as they were. *)
Theorem add_message_frame (cm : t) (key key' c r : string) (ts : option datetime)
    (now : datetime) :
  key ≠ key' →
  conversations (add_message cm key c r ts now) !! key' = conversations cm !! key' ∧
  conversation_metadata (add_message cm key c r ts now) !! key'
    = conversation_metadata cm !! key'.
Proof.
  intros Hne. rewrite add_message_conversations, add_message_metadata_eq.
  split; apply lookup_insert_ne, Hne.
Qed.

Lemma add_message_frame_witness :
  stored (add_message (add_message (init 100 30) "K1" "hi" "user" None 1)
            "K2" "yo" "user" None 2) "K1"
  = [mkMessage "hi" "user" 1].
Proof.
  unfold stored.
  rewrite (proj1 (add_message_frame (add_message (init 100 30) "K1" "hi" "user" None 1)
                    "K2" "K1" "yo" "user" None 2 ltac:(discriminate))).
  reflexivity.
Defined.

(** What [cleanup_old_conversations] does to one key of either dictionary. *)
Lemma cleanup_conversations_lookup cm now key :
  conversations (cleanup_old_conversations cm now) !! key =
  if bool_decide (is_Some (conversations cm !! key))
     && stale cm (now - timedelta_days (context_window_days cm)) key
  then None else conversations cm !! key.
Proof.
  unfold cleanup_old_conversations. simpl.
  destruct (bool_decide (is_Some (conversations cm !! key)) && stale cm _ key) eqn:E.
  - apply map_lookup_filter_None. right. intros d _ HP. simpl in HP. congruence.
  - destruct (conversations cm !! key) as [d|] eqn:Hd.
    + apply map_lookup_filter_Some_2; [exact Hd | simpl; rewrite Hd; exact E].
    + apply map_lookup_filter_None. left. exact Hd.
Qed.

Lemma cleanup_metadata_lookup cm now key :
  conversation_metadata (cleanup_old_conversations cm now) !! key =
  if bool_decide (is_Some (conversations cm !! key))
     && stale cm (now - timedelta_days (context_window_days cm)) key
  then None else conversation_metadata cm !! key.
Proof.
  unfold cleanup_old_conversations. simpl.
  destruct (bool_decide (is_Some (conversations cm !! key)) && stale cm _ key) eqn:E.
  - apply map_lookup_filter_None. right. intros d _ HP. simpl in HP. congruence.
  - destruct (conversation_metadata cm !! key) as [d|] eqn:Hd.
    + apply map_lookup_filter_Some_2; [exact Hd | simpl; exact E].
    + apply map_lookup_filter_None. left. exact Hd.
Qed.

Lemma add_message_has_record cm key c r ts now :
  is_Some (conversations (add_message cm key c r ts now) !! key).
Proof. rewrite add_message_conversations, lookup_insert_eq. eexists. reflexivity. Qed.

(** X4.  A clean-up at time [now] removes a conversation, record and
    metadata, exactly when its last append is stamped before
    [now - context_window_days]; a conversation whose last append is stamped at
    or after that cutoff is kept as it is. *)
Theorem cleanup_after_append (cm : t) (key c r : string) (ts : option datetime)
    (now0 now : datetime) :
  let cm' := add_message cm key c r ts now0 in
  let cutoff := now - timedelta_days (context_window_days cm) in
  (default now0 ts < cutoff →
   conversations (cleanup_old_conversations cm' now) !! key = None ∧
   conversation_metadata (cleanup_old_conversations cm' now) !! key = None) ∧
  (cutoff ≤ default now0 ts →
   conversations (cleanup_old_conversations cm' now) !! key = conversations cm' !! key ∧
   conversation_metadata (cleanup_old_conversations cm' now) !! key
     = conversation_metadata cm' !! key).
Proof.
  intros cm' cutoff. subst cm' cutoff.
  rewrite cleanup_conversations_lookup, cleanup_metadata_lookup.
  rewrite (bool_decide_eq_true_2 _ (add_message_has_record cm key c r ts now0)).
  unfold stale. rewrite add_message_last_stamp, add_message_window. simpl.
  split; intros Hts.
  - apply Z.ltb_lt in Hts. rewrite Hts. split; reflexivity.
  - apply Z.ltb_ge in Hts. rewrite Hts. split; reflexivity.
Qed.

(** A conversation last active 31 days ago is removed by the 30-day clean-up;
    one last active 29 days ago is retained. *)
Lemma cleanup_after_append_witness :
  conversations
    (cleanup_old_conversations
       (add_message (init 100 30) "old" "bye" "user" (Some 0) 0) (timedelta_days 31))
    !! "old" = None ∧
  is_Some
    (conversations
       (cleanup_old_conversations
          (add_message (init 100 30) "recent" "hi" "user" (Some 0) 0) (timedelta_days 29))
       !! "recent").
Proof.
  split.
  - apply (proj1 (cleanup_after_append (init 100 30) "old" "bye" "user" (Some 0) 0
                    (timedelta_days 31))).
    reflexivity.
  - rewrite (proj1 (proj2 (cleanup_after_append (init 100 30) "recent" "hi" "user" (Some 0) 0
                             (timedelta_days 29)) ltac:(discriminate))).
    apply add_message_has_record.
Defined.

(** X5.  A record that has no metadata is never removed by the clean-up; in
    particular the empty record that a history read leaves behind for an
    unknown key stays in [conversations] through every later clean-up. *)
Theorem read_record_survives_cleanup (cm : t) (key : string) (limit : option Z)
    (now1 now2 : datetime) :
  conversations cm !! key = None →
  conversation_metadata cm !! key = None →
  conversations
    (cleanup_old_conversations (get_conversation_history cm key limit now1).2 now2) !! key
  = Some (deque_new (max_messages_per_conversation cm)).
Proof.
  intros Hc Hm.
  rewrite cleanup_conversations_lookup.
  unfold stale, last_stamp. rewrite history_read_frame_metadata, Hm. simpl.
  rewrite andb_false_r.
  unfold get_conversation_history, conversations_getitem. rewrite Hc. simpl.
  apply lookup_insert_eq.
Qed.

Lemma read_record_survives_cleanup_witness :
  conversations
    (cleanup_old_conversations
       (get_conversation_history (init 100 30) "nobody" None 0).2 (timedelta_days 365))
    !! "nobody" = Some (deque_new 100).
Proof.
  apply (read_record_survives_cleanup (init 100 30) "nobody" None 0 (timedelta_days 365));
    reflexivity.
Defined.

(** X6.  After an append, the conversation is listed as active within [days]
    days exactly when the message's timestamp is at or after [now - days];
    the listing of every other conversation is unchanged. *)
Theorem active_after_append (cm : t) (key c r : string) (ts : option datetime)
    (now0 now : datetime) (days : Z) :
  (key ∈ get_active_conversations (add_message cm key c r ts now0) days now
   ↔ now - timedelta_days days ≤ default now0 ts) ∧
  (∀ key', key ≠ key' →
     key' ∈ get_active_conversations (add_message cm key c r ts now0) days now
     ↔ key' ∈ get_active_conversations cm days now).
Proof.
  unfold get_active_conversations. split; [| intros key' Hne];
    rewrite !elem_of_dom; unfold is_Some; setoid_rewrite map_lookup_filter_Some;
    rewrite add_message_metadata_eq.
  - rewrite lookup_insert_eq. unfold active_since. simpl. split.
    + intros (md & [= <-] & Hact). simpl in Hact. apply Z.leb_le, Hact.
    + intros Hle. eexists. split; [reflexivity |]. simpl. apply Z.leb_le, Hle.
  - rewrite lookup_insert_ne by exact Hne. reflexivity.
Qed.

(** X7.  A positive [limit] keeps the most recent [limit] messages of the
    unlimited history; a negative [limit] is not rejected: it drops the
    [-limit] oldest messages and returns the rest. *)
Theorem history_limit (cm : t) (key : string) (n : Z) (now : datetime) :
  let unlimited := (get_conversation_history cm key None now).1 in
  (0 < n → (get_conversation_history cm key (Some n) now).1
           = lastn (Z.to_nat n) unlimited) ∧
  (n < 0 → (get_conversation_history cm key (Some n) now).1
           = drop (Z.to_nat (- n)) unlimited).
Proof.
  intros unlimited. unfold unlimited. rewrite !history_of_stored. simpl.
  set (l := filter _ (stored cm key)).
  split; intros Hn.
  - destruct (Z.eqb_spec n 0) as [-> | _]; [lia |]. simpl.
    destruct (Z.ltb_spec n (Z.of_nat (length l))) as [Hlt | Hge].
    + unfold slice_from, lastn.
      assert ((- n <? 0) = true) as -> by (apply Z.ltb_lt; lia).
      rewrite <- skipn_map, length_map. do 2 f_equal. lia.
    + rewrite lastn_all by (rewrite length_map; lia). reflexivity.
  - destruct (Z.eqb_spec n 0) as [-> | _]; [lia |]. simpl.
    assert ((n <? Z.of_nat (length l)) = true) as -> by (apply Z.ltb_lt; lia).
    unfold slice_from.
    assert ((- n <? 0) = false) as -> by (apply Z.ltb_ge; lia).
    rewrite <- skipn_map.
    destruct (Z.le_ge_cases (- n) (Z.of_nat (length l))) as [Hle | Hge].
    + rewrite Z.min_l by exact Hle. reflexivity.
    + rewrite Z.min_r by exact Hge. rewrite Nat2Z.id.
      rewrite (drop_ge _ (length l)) by (rewrite length_map; lia).
      rewrite drop_ge by (rewrite length_map; lia). reflexivity.
Qed.

Lemma history_limit_witness :
  (get_conversation_history
     (add_messages (init 100 30) "K"
        [mkAdd "a" "user" (Some 5) 5; mkAdd "b" "user" (Some 6) 6;
         mkAdd "c" "user" (Some 7) 7]) "K" (Some 2) 8).1
  = [mkDict "b" "user" 6; mkDict "c" "user" 7] ∧
  (get_conversation_history
     (add_messages (init 100 30) "K"
        [mkAdd "a" "user" (Some 5) 5; mkAdd "b" "user" (Some 6) 6;
         mkAdd "c" "user" (Some 7) 7]) "K" (Some (-1)) 8).1
  = [mkDict "b" "user" 6; mkDict "c" "user" 7].
Proof.
  split.
  - apply (proj1 (history_limit
                    (add_messages (init 100 30) "K"
                       [mkAdd "a" "user" (Some 5) 5; mkAdd "b" "user" (Some 6) 6;
                        mkAdd "c" "user" (Some 7) 7]) "K" 2 8)).
    reflexivity.
  - apply (proj2 (history_limit
                    (add_messages (init 100 30) "K"
                       [mkAdd "a" "user" (Some 5) 5; mkAdd "b" "user" (Some 6) 6;
                        mkAdd "c" "user" (Some 7) 7]) "K" (-1) 8)).
    reflexivity.
Defined.

Lemma last_List_last {A} (l : list A) (d : A) :
  l ≠ [] → last l = Some (List.last l d).
Proof.
  induction l as [|x [|y l] IH]; intros Hne; [done | reflexivity |].
  rewrite last_cons_cons.
  change (List.last (x :: y :: l) d) with (List.last (y :: l) d).
  apply IH. discriminate.
Qed.

Lemma summary_of_stored cm key now :
  (get_conversation_summary cm key now).1 =
  match stored cm key with
  | [] => mkSummary 0 None None 0 None
  | m0 :: _ =>
      mkSummary (length (stored cm key)) (Some (timestamp m0))
        (Some (timestamp (List.last (stored cm key) m0)))
        (days_between (timestamp (List.last (stored cm key) m0)) (timestamp m0) + 1)
        (Some (length (filter (λ m, now - timedelta_days 7 ≤ timestamp m) (stored cm key))))
  end.
Proof.
  unfold get_conversation_summary, conversations_getitem, stored.
  destruct (conversations cm !! key) as [d|]; simpl; [| reflexivity].
  destruct (items d); reflexivity.
Qed.

(** X8.  The summary describes the retained messages only: its count is the
    number of messages still in the deque (at most the capacity), its first
    and last timestamps are those of the oldest and newest retained message,
    the recent-activity count never exceeds the message count, [days_active]
    is at least 1 when the oldest retained message is not stamped after the
    newest, and an empty conversation has [days_active = 0]. *)
Theorem summary_of_retained (cm : t) (key : string) (now : datetime) :
  well_formed cm →
  let s := (get_conversation_summary cm key now).1 in
  s_message_count s = length (stored cm key) ∧
  (s_message_count s ≤ max_messages_per_conversation cm)%nat ∧
  s_first_message s = timestamp <$> head (stored cm key) ∧
  s_last_activity s = timestamp <$> last (stored cm key) ∧
  (∀ n, s_recent_activity s = Some n → (n ≤ s_message_count s)%nat) ∧
  (∀ t0 t1, s_first_message s = Some t0 → s_last_activity s = Some t1 →
            t0 ≤ t1 → 1 ≤ s_days_active s) ∧
  (stored cm key = [] → s_days_active s = 0).
Proof.
  intros Hwf s. subst s. rewrite summary_of_stored.
  pose proof (stored_length_well_formed cm key Hwf) as Hlen.
  destruct (stored cm key) as [|m0 l] eqn:Hst; simpl.
  - repeat split; try done; lia.
  - rewrite (last_List_last (m0 :: l) m0) by discriminate.
    split; [reflexivity |]. split; [exact Hlen |].
    split; [reflexivity |]. split; [reflexivity |].
    split; [| split; [| discriminate]].
    + intros n [= <-]. apply (length_filter _ (m0 :: l)).
    + intros t0 t1 [= <-] [= <-] Hle.
      revert Hle.
      match goal with |- context [days_between ?a _] => generalize a as t1 end.
      intros t1 Hle.
      unfold days_between, microseconds_per_day.
      assert (0 ≤ (t1 - timestamp m0) `div` 86400000000) by (apply Z.div_pos; lia).
      lia.
Qed.

Lemma summary_of_retained_witness :
  s_message_count
    (get_conversation_summary
       (add_messages (init 2 30) "K"
          [mkAdd "a" "user" (Some 5) 5; mkAdd "b" "user" (Some 6) 6;
           mkAdd "c" "user" (Some 7) 7]) "K" 8).1 = 2%nat ∧
  s_first_message
    (get_conversation_summary
       (add_messages (init 2 30) "K"
          [mkAdd "a" "user" (Some 5) 5; mkAdd "b" "user" (Some 6) 6;
           mkAdd "c" "user" (Some 7) 7]) "K" 8).1 = Some 6.
Proof.
  destruct (summary_of_retained
              (add_messages (init 2 30) "K"
                 [mkAdd "a" "user" (Some 5) 5; mkAdd "b" "user" (Some 6) 6;
                  mkAdd "c" "user" (Some 7) 7]) "K" 8)
    as (Hcount & _ & Hfirst & _).
  - apply add_messages_well_formed, init_well_formed.
  - split; [exact Hcount | exact Hfirst].
Defined.

(** X9.  In a well-formed store the total number of stored messages reported
    by the statistics is at most the number of conversations times the
    per-conversation capacity. *)
Theorem total_messages_bounded (cm : t) :
  well_formed cm →
  (total_messages cm ≤ total_conversations cm * max_messages_per_conversation cm)%nat.
Proof.
  intros Hwf. unfold total_messages, total_conversations.
  assert (∀ key d, conversations cm !! key = Some d →
            (length (items d) ≤ max_messages_per_conversation cm)%nat) as Hlen.
  { intros key d Hd. destruct (Hwf key d Hd) as [Hmax Hle]. lia. }
  clear Hwf. revert Hlen.
  generalize (max_messages_per_conversation cm) as N. intros N.
  apply (map_fold_weak_ind
           (λ (r : nat) (m : gmap string deque),
              (∀ key d, m !! key = Some d → (length (items d) ≤ N)%nat) →
              (r ≤ size m * N)%nat)).
  - intros _. rewrite map_size_empty. lia.
  - intros i x m r Hi IH Hall.
    rewrite map_size_insert_None by exact Hi.
    assert (length (items x) ≤ N)%nat by (apply (Hall i), lookup_insert_eq).
    assert (r ≤ size m * N)%nat.
    { apply IH. intros key d Hd. apply (Hall key).
      rewrite lookup_insert_ne; [exact Hd |]. intros ->. congruence. }
    simpl. lia.
Qed.

Lemma total_messages_bounded_witness :
  let cm :=
    add_messages (add_messages (init 2 30) "K"
                    [mkAdd "a" "user" (Some 5) 5; mkAdd "b" "user" (Some 6) 6;
                     mkAdd "c" "user" (Some 7) 7])
                 "L" [mkAdd "x" "user" (Some 8) 8] in
  (total_messages cm ≤ 2 * 2)%nat.
Proof.
  intros cm. apply (total_messages_bounded cm).
  do 2 apply add_messages_well_formed. apply init_well_formed.
Defined.

Lemma apply_limit_nil {A} (limit : option Z) : apply_limit limit (@nil A) = [].
Proof.
  destruct limit as [n|]; [| reflexivity]. unfold apply_limit.
  destruct (negb (n =? 0) && (n <? Z.of_nat (length (@nil A)))); [| reflexivity].
  unfold slice_from. apply drop_nil.
Qed.

Lemma recent_lines_start (d : MessageDict) (lines : list string) :
  ∃ s', join_lines (context_line d :: lines) = String "[" s'.
Proof. unfold context_line. destruct lines; simpl; eexists; reflexivity. Qed.

(** X10.  For a non-negative [max_messages], [get_recent_context] returns the
    "no history" sentence exactly when the conversation has no message inside
    the time window; otherwise the text starts with the bracketed time of a
    message. *)
Theorem recent_context_sentinel (cm : t) (key : string) (max_messages : Z)
    (now : datetime) :
  0 ≤ max_messages →
  ((get_recent_context cm key max_messages now).1 = no_history
   ↔ filter (λ m, in_window cm now m = true) (stored cm key) = []).
Proof.
  intros Hmax. unfold get_recent_context.
  pose proof (history_of_stored cm key (Some max_messages) now) as Hh.
  destruct (get_conversation_history cm key (Some max_messages) now)
    as [messages cm'] eqn:Hget. cbn [fst] in Hh. subst messages.
  set (l := filter _ (stored cm key)).
  destruct (decide (l = [])) as [Hnil | Hne].
  - rewrite Hnil, apply_limit_nil. simpl. done.
  - split; [| done]. intros Hres. exfalso.
    destruct (last l) as [x|] eqn:Hlast; [| apply last_None in Hlast; done].
    apply last_Some in Hlast as [pre Hpre].
    pose proof (apply_limit_keeps_last (Some max_messages) pre x Hmax) as Hin.
    rewrite <- Hpre in Hin.
    destruct (apply_limit (Some max_messages) l) as [|m ms] eqn:Hlim;
      [inversion Hin |].
    cbn [fst map] in Hres.
    destruct (recent_lines_start (to_dict m) (map context_line (map to_dict ms)))
      as [s' Hs'].
    rewrite Hs' in Hres. discriminate.
Qed.

Lemma recent_context_sentinel_witness :
  (get_recent_context (init 100 30) "K" 10 0).1 = no_history.
Proof.
  apply (recent_context_sentinel (init 100 30) "K" 10 0); [lia | reflexivity].
Defined.

End ContextManagerExtra.

(** ** More of the personality engine *)

Module PersonalityEngineExtra.
Import Datetime PyFloat PersonalityEngine PersonalityEngineSpec Fixtures.

Section WithRandom.
Context {G : Type} `{RandomSource G}.

(** The parts of the context that do not depend on the random source. *)
Lemma get_context_for_sender_fields (pe : t) (sender : string) (g : G) :
  let relationship := relationships pe !! sender in
  let ctx := (get_context_for_sender pe sender g).1 in
  communication_style ctx
    = default (base_communication_style pe)
              (relationship ≫= communication_style_override) ∧
  personality_traits ctx = _get_active_traits pe relationship ∧
  relationship_context ctx
    = match relationship with
      | Some r => mkRelCtx (relationship_type r) (closeness_level r) (interaction_frequency r)
      | None => mkRelCtx "unknown" (5 # 10) 1
      end ∧
  behavioral_guidelines ctx = _get_behavioral_guidelines relationship ∧
  response_examples ctx
    = (_get_response_examples pe (_get_active_traits pe relationship) g).1.
Proof.
  unfold get_context_for_sender. simpl.
  destruct (_get_response_examples pe _ g) as [examples g'].
  destruct (relationships pe !! sender) as [r|]; simpl;
    [destruct (communication_style_override r) |]; done.
Qed.

(** X11.  After [add_relationship], the context built for the profile's
    contact uses the profile's style override when it has one (the base style
    otherwise) and reports the profile's type, closeness and interaction
    frequency; the context built for any other sender is what it was. *)
Theorem context_after_add_relationship (pe : t) (profile : RelationshipProfile) (g : G) :
  let pe' := add_relationship pe profile in
  let ctx := (get_context_for_sender pe' (contact_identifier profile) g).1 in
  communication_style ctx
    = default (base_communication_style pe) (communication_style_override profile) ∧
  relationship_context ctx
    = mkRelCtx (relationship_type profile) (closeness_level profile)
               (interaction_frequency profile) ∧
  behavioral_guidelines ctx = _get_behavioral_guidelines (Some profile) ∧
  (∀ sender, sender ≠ contact_identifier profile →
     get_context_for_sender pe' sender g = get_context_for_sender pe sender g).
Proof.
  intros pe' ctx.
  destruct (get_context_for_sender_fields pe' (contact_identifier profile) g)
    as (Hstyle & _ & Hrel & Hguide & _).
  assert (relationships pe' !! contact_identifier profile = Some profile) as Hlook
    by apply lookup_insert_eq.
  rewrite Hlook in Hstyle, Hrel, Hguide.
  split; [exact Hstyle |]. split; [exact Hrel |]. split; [exact Hguide |].
  intros sender Hne. unfold get_context_for_sender, pe', add_relationship.
  simpl. rewrite lookup_insert_ne by (intros Heq; apply Hne; symmetry; exact Heq).
  reflexivity.
Qed.

End WithRandom.

Section Examples.
Context {G : Type} `{RandomSource G}.

Lemma response_examples_loop_quiet (pe : t) (active_traits : list (string * Q)) :
  Forall (λ nw, (nw.2 <= 5 # 10)%Q) active_traits →
  ∀ (acc : list string) (g : G),
    fold_left
      (λ '(examples, g) '(trait_name, weight),
         match (if ltb (5 # 10) weight then dict_get trait_name (traits pe) else None) with
         | Some trait =>
             let '(draw, g) := random g in
             if ltb draw weight then
               let '(picked, g) :=
                 sample (PersonalityEngine.examples trait)
                        (Nat.min 2 (length (PersonalityEngine.examples trait))) g in
               (examples ++ picked, g)
             else (examples, g)
         | None => (examples, g)
         end)
      active_traits (acc, g) = (acc, g).
Proof.
  induction 1 as [|[n w] l Hw _ IH]; intros acc g; [reflexivity |].
  simpl in *. destruct (ltb_reflect (5 # 10) w) as [Hlt | _]; [lra |].
  apply IH.
Qed.

(** X12.  [get_context_for_sender] never hands over more than five response
    examples, and traits whose effective weight is not above 0.5 contribute
    none and draw nothing from the random source: when no trait is above 0.5
    the example list is empty and the source is left as it was. *)
Theorem response_examples_bounds (pe : t) (active_traits : list (string * Q)) (g : G) :
  (length (_get_response_examples pe active_traits g).1 ≤ 5)%nat ∧
  (Forall (λ nw, (nw.2 <= 5 # 10)%Q) active_traits →
   _get_response_examples pe active_traits g = ([], g)).
Proof.
  unfold _get_response_examples. split.
  - destruct (_get_response_examples_loop pe active_traits g) as [examples g'].
    simpl. rewrite length_take. lia.
  - intros Hlow. unfold _get_response_examples_loop.
    rewrite (response_examples_loop_quiet pe active_traits Hlow [] g). reflexivity.
Qed.

End Examples.

Lemma response_examples_bounds_witness :
  _get_response_examples (init (personality default_settings))
    [("decisiveness", (5 # 10)%Q); ("patience", (2 # 10)%Q)] ([(1 # 10)%Q] : Scripted)
  = ([], [(1 # 10)%Q]).
Proof.
  apply (response_examples_bounds (init (personality default_settings))
           [("decisiveness", (5 # 10)%Q); ("patience", (2 # 10)%Q)]
           ([(1 # 10)%Q] : Scripted)).
  repeat constructor; simpl; lra.
Defined.

Lemma py_min_mono (x y : Q) : (x <= y)%Q → (py_min 1 x <= py_min 1 y)%Q.
Proof.
  intros Hxy. unfold py_min.
  destruct (ltb_reflect x 1); destruct (ltb_reflect y 1); lra.
Qed.

Lemma py_min_proper (x y : Q) : (x == y)%Q → (py_min 1 x == py_min 1 y)%Q.
Proof.
  intros Hxy. unfold py_min.
  destruct (ltb_reflect x 1); destruct (ltb_reflect y 1); lra.
Qed.

(** The threshold is [min(1.0, p * closeness * trigger * hours)]. *)
Lemma response_threshold_product (pe : t) (md : MessageData) (now : datetime) :
  (response_threshold pe md now ==
   py_min 1 (response_probability pe
             * closeness_factor pe (default "" (md_sender md))
             * trigger_factor (PyStr.lower (default "" (md_content md)))
             * hours_factor pe now))%Q.
Proof.
  unfold response_threshold, closeness_factor, trigger_factor, hours_factor.
  apply py_min_proper.
  destruct (relationships pe !! _) as [r|];
    destruct (PyStr.any_in _ _); destruct (negb _); lra.
Qed.

Lemma trigger_factor_pos (content : string) : (0 < trigger_factor content)%Q.
Proof. unfold trigger_factor. destruct (PyStr.any_in _ _); lra. Qed.

Lemma hours_factor_bounds (pe : t) (now : datetime) :
  (0 < hours_factor pe now <= 1)%Q.
Proof. unfold hours_factor. destruct (negb _); lra. Qed.

(** X13.  The probability that the draw is compared with never exceeds 1, so
    a draw of 1 or more never leads to a response; it is not negative when
    the configured base probability is not negative and the sender's
    closeness, if there is a profile, is at least -1. *)
Theorem response_threshold_bounds (pe : t) (md : MessageData) (now : datetime) :
  (response_threshold pe md now <= 1)%Q ∧
  ((0 <= response_probability pe)%Q →
   (∀ r, relationships pe !! default "" (md_sender md) = Some r →
         (-1 <= closeness_level r)%Q) →
   (0 <= response_threshold pe md now)%Q).
Proof.
  split.
  - rewrite response_threshold_product. unfold py_min.
    match goal with |- context [ltb ?x ?y] => destruct (ltb_reflect x y) end; lra.
  - intros Hp Hclose. rewrite response_threshold_product.
    assert (0 <= closeness_factor pe (default "" (md_sender md)))%Q as Hcf.
    { unfold closeness_factor.
      destruct (relationships pe !! _) as [r|]; [| lra].
      specialize (Hclose r eq_refl). lra. }
    pose proof (trigger_factor_pos (PyStr.lower (default "" (md_content md)))) as Htf.
    pose proof (hours_factor_bounds pe now) as Hhf.
    assert (0 <= response_probability pe
                 * closeness_factor pe (default "" (md_sender md))
                 * trigger_factor (PyStr.lower (default "" (md_content md)))
                 * hours_factor pe now)%Q as Hprod.
    { repeat apply Qmult_le_0_compat; lra. }
    unfold py_min.
    match goal with |- context [ltb ?x ?y] => destruct (ltb_reflect x y) end; lra.
Qed.

Lemma response_threshold_bounds_witness :
  (0 <= response_threshold (init (personality default_settings))
                           (message "alice" "hello") noon)%Q.
Proof.
  apply (response_threshold_bounds (init (personality default_settings))
           (message "alice" "hello") noon).
  - simpl. lra.
  - intros r Hr. discriminate.
Defined.

(** X14.  Closer relationships get a higher response probability: with a
    non-negative base probability, registering the sender with a higher
    closeness never lowers the threshold. *)
Theorem closer_is_likelier (pe : t) (p1 p2 : RelationshipProfile)
    (md : MessageData) (now : datetime) :
  (0 <= response_probability pe)%Q →
  contact_identifier p1 = default "" (md_sender md) →
  contact_identifier p2 = default "" (md_sender md) →
  (closeness_level p1 <= closeness_level p2)%Q →
  (response_threshold (add_relationship pe p1) md now
   <= response_threshold (add_relationship pe p2) md now)%Q.
Proof.
  intros Hp Hid1 Hid2 Hclose.
  rewrite !response_threshold_product. apply py_min_mono.
  pose proof (trigger_factor_pos (PyStr.lower (default "" (md_content md)))) as Htf.
  assert (hours_factor (add_relationship pe p1) now
          = hours_factor (add_relationship pe p2) now) as -> by reflexivity.
  pose proof (hours_factor_bounds (add_relationship pe p2) now) as Hhf.
  change (response_probability (add_relationship pe p1)) with (response_probability pe).
  change (response_probability (add_relationship pe p2)) with (response_probability pe).
  assert (closeness_factor (add_relationship pe p1) (default "" (md_sender md))
          = (5 # 10) + (5 # 10) * closeness_level p1)%Q as ->.
  { unfold closeness_factor, add_relationship. simpl.
    rewrite Hid1, lookup_insert_eq. reflexivity. }
  assert (closeness_factor (add_relationship pe p2) (default "" (md_sender md))
          = (5 # 10) + (5 # 10) * closeness_level p2)%Q as ->.
  { unfold closeness_factor, add_relationship. simpl.
    rewrite Hid2, lookup_insert_eq. reflexivity. }
  repeat apply Qmult_le_compat_r; try lra.
  rewrite !(Qmult_comm (response_probability pe)).
  apply Qmult_le_compat_r; lra.
Qed.

Lemma closer_is_likelier_witness :
  (response_threshold
     (add_relationship (init (personality default_settings))
        (mkProfile "bob" "friend" (2 # 10) None ∅ None 0 ""))
     (message "bob" "hello") noon
   <= response_threshold
        (add_relationship (init (personality default_settings)) friend_profile)
        (message "bob" "hello") noon)%Q.
Proof.
  apply (closer_is_likelier (init (personality default_settings))
           (mkProfile "bob" "friend" (2 # 10) None ∅ None 0 "") friend_profile
           (message "bob" "hello") noon).
  - simpl. lra.
  - reflexivity.
  - reflexivity.
  - simpl. lra.
Defined.

(** X15.  Outside the active hours a response is never more likely than
    inside them: for the same engine and message, the threshold at a time
    outside the window is at most the threshold at a time inside it (base
    probability not negative, closeness at least -1). *)
Theorem outside_hours_is_less_likely (pe : t) (md : MessageData)
    (now_in now_out : datetime) :
  (0 <= response_probability pe)%Q →
  (∀ r, relationships pe !! default "" (md_sender md) = Some r →
        (-1 <= closeness_level r)%Q) →
  active_hours_start pe ≤ time_of_day now_in ≤ active_hours_end pe →
  ¬ (active_hours_start pe ≤ time_of_day now_out ≤ active_hours_end pe) →
  (response_threshold pe md now_out <= response_threshold pe md now_in)%Q ∧
  (response_threshold pe md now_out
   == py_min 1 ((3 # 10) * (response_probability pe
                * closeness_factor pe (default "" (md_sender md))
                * trigger_factor (PyStr.lower (default "" (md_content md))))))%Q.
Proof.
  intros Hp Hclose [Hin1 Hin2] Hout.
  rewrite !response_threshold_product.
  assert (hours_factor pe now_in = 1%Q) as ->.
  { unfold hours_factor. apply Z.leb_le in Hin1, Hin2. rewrite Hin1, Hin2. reflexivity. }
  assert (hours_factor pe now_out = (3 # 10)%Q) as ->.
  { unfold hours_factor.
    destruct (Z.leb_spec (active_hours_start pe) (time_of_day now_out));
      destruct (Z.leb_spec (time_of_day now_out) (active_hours_end pe));
      try reflexivity. exfalso. apply Hout. lia. }
  assert (0 <= closeness_factor pe (default "" (md_sender md)))%Q as Hcf.
  { unfold closeness_factor.
    destruct (relationships pe !! _) as [r|]; [| lra].
    specialize (Hclose r eq_refl). lra. }
  pose proof (trigger_factor_pos (PyStr.lower (default "" (md_content md)))) as Htf.
  assert (0 <= response_probability pe
               * closeness_factor pe (default "" (md_sender md))
               * trigger_factor (PyStr.lower (default "" (md_content md))))%Q as Hprod.
  { repeat apply Qmult_le_0_compat; lra. }
  split.
  - apply py_min_mono. lra.
  - apply py_min_proper. lra.
Qed.

Lemma outside_hours_is_less_likely_witness :
  (response_threshold (init (personality default_settings)) (message "alice" "hello")
                      (time_hm 23 30)
   <= response_threshold (init (personality default_settings)) (message "alice" "hello")
                         noon)%Q.
Proof.
  apply (outside_hours_is_less_likely (init (personality default_settings))
           (message "alice" "hello") noon (time_hm 23 30)).
  - simpl. lra.
  - intros r Hr. discriminate.
  - split; apply Z.leb_le; reflexivity.
  - intros [_ Hle]. apply Z.leb_le in Hle. discriminate.
Defined.

(** X16.  For a sender that has a profile, [update_interaction_history] stamps
    the profile's last interaction with the current time and adds one to the
    interaction frequency exactly when the message type is ['received']; the
    profile's other fields, every other profile, the traits and the response
    settings stay as they were. *)
Theorem update_interaction_history_known_sender (pe : t) (sender message_type : string)
    (now : datetime) (r : RelationshipProfile) :
  relationships pe !! sender = Some r →
  let pe' := update_interaction_history pe sender message_type now in
  relationships pe' !! sender =
    Some (mkProfile (contact_identifier r) (relationship_type r) (closeness_level r)
            (communication_style_override r) (personality_adjustments r)
            (Some now)
            (interaction_frequency r + (if String.eqb message_type "received" then 1 else 0))
            (notes r)) ∧
  (∀ other, other ≠ sender → relationships pe' !! other = relationships pe !! other) ∧
  traits pe' = traits pe ∧
  response_probability pe' = response_probability pe ∧
  base_communication_style pe' = base_communication_style pe.
Proof.
  intros Hr pe'. subst pe'. unfold update_interaction_history. rewrite Hr. simpl.
  split.
  - rewrite lookup_insert_eq. unfold received.
    destruct (String.eqb message_type "received"); [reflexivity |].
    rewrite Z.add_0_r. reflexivity.
  - split; [| done]. intros other Hne. apply lookup_insert_ne. congruence.
Qed.

Lemma update_interaction_history_known_sender_witness :
  (relationships
     (update_interaction_history
        (add_relationship (init (personality default_settings)) friend_profile)
        "bob" "received" 77) !! "bob")
  ≫= (λ r, Some (last_interaction r, interaction_frequency r))
  = Some (Some 77, 1).
Proof.
  rewrite (proj1 (update_interaction_history_known_sender
                    (add_relationship (init (personality default_settings)) friend_profile)
                    "bob" "received" 77 friend_profile eq_refl)).
  reflexivity.
Defined.

Lemma dict_get_set_eq {V} (key : string) (v : V) (d : list (string * V)) :
  dict_get key (dict_set key v d) = Some v.
Proof.
  induction d as [|[k v'] d IH]; simpl.
  - rewrite String.eqb_refl. reflexivity.
  - destruct (String.eqb_spec k key) as [-> | Hne]; simpl.
    + rewrite String.eqb_refl. reflexivity.
    + destruct (String.eqb_spec k key); [contradiction | exact IH].
Qed.

Lemma dict_get_set_ne {V} (key key' : string) (v : V) (d : list (string * V)) :
  key ≠ key' → dict_get key' (dict_set key v d) = dict_get key' d.
Proof.
  intros Hne. induction d as [|[k v'] d IH]; simpl.
  - destruct (String.eqb_spec key key'); [contradiction | reflexivity].
  - destruct (String.eqb_spec k key) as [-> | Hk]; simpl.
    + destruct (String.eqb_spec key key'); [contradiction | reflexivity].
    + destruct (String.eqb_spec k key'); [reflexivity | exact IH].
Qed.

Lemma dict_set_keys {V} (key : string) (v : V) (d : list (string * V)) :
  (dict_set key v d).*1 =
  match dict_get key d with
  | Some _ => d.*1
  | None => d.*1 ++ [key]
  end.
Proof.
  induction d as [|[k v'] d IH]; [reflexivity |].
  cbn [dict_set dict_get].
  destruct (String.eqb_spec k key) as [-> | Hk]; [reflexivity |].
  rewrite !fmap_cons, IH. destruct (dict_get key d); reflexivity.
Qed.

Lemma dict_get_None_keys {V} (key : string) (d : list (string * V)) :
  dict_get key d = None → key ∉ d.*1.
Proof.
  induction d as [|[k v] d IH]; simpl; [intros _; apply not_elem_of_nil |].
  destruct (String.eqb_spec k key) as [-> | Hk]; [discriminate |].
  intros Hnone. apply not_elem_of_cons. split; [congruence | apply IH, Hnone].
Qed.

(** X17.  [add_trait] is an upsert by trait name: afterwards the name maps to
    the new trait, every other name maps to what it did, a name that was
    already configured keeps its place in the table (so the table does not
    grow), a new name is appended at the end, and names stay unique. *)
Theorem add_trait_upsert (pe : t) (trait : PersonalityTrait) :
  dict_get (name trait) (traits (add_trait pe trait)) = Some trait ∧
  (∀ other, other ≠ name trait →
     dict_get other (traits (add_trait pe trait)) = dict_get other (traits pe)) ∧
  (traits (add_trait pe trait)).*1 =
    (if bool_decide (is_Some (dict_get (name trait) (traits pe)))
     then (traits pe).*1 else (traits pe).*1 ++ [name trait]) ∧
  (NoDup (traits pe).*1 → NoDup (traits (add_trait pe trait)).*1).
Proof.
  unfold add_trait. simpl.
  split; [apply dict_get_set_eq |].
  split; [intros other Hne; apply dict_get_set_ne; congruence |].
  rewrite dict_set_keys.
  destruct (dict_get (name trait) (traits pe)) as [old|] eqn:Hget.
  - rewrite bool_decide_eq_true_2 by (eexists; reflexivity). split; [reflexivity | done].
  - rewrite bool_decide_eq_false_2 by (intros [x Hx]; discriminate).
    split; [reflexivity |]. intros Hnd.
    apply NoDup_app. split; [exact Hnd |]. split; [| apply NoDup_singleton].
    intros x Hx Hin. apply list_elem_of_singleton in Hin as ->.
    exact (dict_get_None_keys _ _ Hget Hx).
Qed.

Lemma add_trait_upsert_witness :
  NoDup (traits (add_trait (init (personality default_settings))
                   (mkTrait "helpfulness" (3 # 10) "less eager" [] []))).*1.
Proof.
  apply (add_trait_upsert (init (personality default_settings))
           (mkTrait "helpfulness" (3 # 10) "less eager" [] [])).
  apply (bool_decide_unpack _). vm_compute. exact I.
Defined.

End PersonalityEngineExtra.

(** ** More of the clone: what a message leaves in the history, start and stop *)

Module DigitalCloneExtra.
Import Datetime PyFloat DigitalClone DigitalCloneSpec Fixtures ContextManagerSpec.

Lemma history_read_stored cm key key' limit now :
  ContextManager.stored (ContextManager.get_conversation_history cm key limit now).2 key'
  = ContextManager.stored cm key'.
Proof.
  unfold ContextManager.get_conversation_history, ContextManager.conversations_getitem,
    ContextManager.stored.
  destruct (ContextManager.conversations cm !! key) as [d|] eqn:Hd; simpl; [reflexivity |].
  destruct (decide (key = key')) as [<- | Hne].
  - rewrite lookup_insert_eq, Hd. reflexivity.
  - rewrite lookup_insert_ne by exact Hne. reflexivity.
Qed.

Lemma history_read_max cm key limit now :
  ContextManager.max_messages_per_conversation
    (ContextManager.get_conversation_history cm key limit now).2
  = ContextManager.max_messages_per_conversation cm.
Proof.
  unfold ContextManager.get_conversation_history, ContextManager.conversations_getitem.
  destruct (ContextManager.conversations cm !! key); reflexivity.
Qed.

Section WithRandom.
Context {G : Type} `{RandomSource G}.

(** Logging the platform calls changes nothing but the log. *)
Lemma platform_log_clone (ps : list (string * Platform)) (mk : string → Call) :
  ∀ w0 : World G,
    clone (fold_left (λ w '(name, _), log w (mk name)) ps w0) = clone w0 ∧
    calls (fold_left (λ w '(name, _), log w (mk name)) ps w0)
      = calls w0 ++ map (λ p, mk p.1) ps.
Proof.
  induction ps as [|[name p] ps IH]; intros w0; simpl.
  - rewrite app_nil_r. done.
  - destruct (IH (log w0 (mk name))) as [-> ->]. simpl.
    rewrite <- app_assoc. done.
Qed.

(** X18.  [process_message] never raises.  On a clone that is not running it
    returns [None] and changes nothing.  On a running clone the user's
    message is always appended to the conversation ["<platform>:<sender>"]
    (sender ['unknown'] when the message has none), and an Assistant message
    follows it exactly when a non-empty response is returned: the stored
    conversation is the last [N] of the old one, the user message and that
    reply. *)
Theorem process_message_history (w : World G) (platform_name : string) (md : MessageData) :
  ContextManager.well_formed (context_manager (clone w)) →
  let key := platform_name +:+ ":" +:+ default "unknown" (md_sender md) in
  let user := ContextManager.mkMessage (default "" (md_content md)) "user" (now w) in
  ∃ r w',
    process_message platform_name md w = (Return r, w') ∧
    (is_running (clone w) = false → r = None ∧ w' = w) ∧
    (is_running (clone w) = true →
     ContextManager.stored (context_manager (clone w')) key =
       lastn (ContextManager.max_messages_per_conversation (context_manager (clone w)))
         (ContextManager.stored (context_manager (clone w)) key
          ++ user :: (if truthy r
                      then [ContextManager.mkMessage (default "" r) "assistant" (now w)]
                      else []))).
Proof.
  intros Hwf key user. unfold process_message.
  destruct (is_running (clone w)) eqn:Hrun; simpl;
    [| exists None, w; split; [reflexivity |]; split; [done | discriminate]].
  unfold try_except, mbind, M_bind. unfold bind at 1. fold key.
  unfold cm_add_message at 1.
  set (cm1 := ContextManager.add_message (context_manager (clone w)) key
                (default "" (md_content md)) "user" None (now w)).
  set (w1 := with_clone w (set_context_manager (clone w) cm1)).
  assert (ContextManager.well_formed cm1) as Hwf1
    by apply add_message_well_formed, Hwf.
  assert (ContextManager.stored cm1 key
          = lastn (ContextManager.max_messages_per_conversation (context_manager (clone w)))
              (ContextManager.stored (context_manager (clone w)) key ++ [user])) as Hst1
    by (apply add_message_stored, Hwf).
  destruct (should_respond_frame platform_name md w1) as (b & w2 & Hsr & Hclone2 & Hnow2).
  unfold bind at 1. rewrite Hsr.
  destruct b; simpl.
  2: { exists None, w2. split; [reflexivity |]. split; [discriminate |].
       intros _. rewrite Hclone2. simpl. exact Hst1. }
  unfold bind at 1. unfold pe_get_context_for_sender at 1.
  destruct (PersonalityEngine.get_context_for_sender _ _ _) as [context g3].
  unfold bind at 1. unfold cm_get_conversation_history at 1. simpl.
  rewrite Hclone2. simpl.
  pose proof (history_read_stored cm1 key key None (now w2)) as Hst4.
  pose proof (history_read_max cm1 key None (now w2)) as Hmax4.
  pose proof (history_read_well_formed cm1 key None (now w2) Hwf1) as Hwf4.
  destruct (ContextManager.get_conversation_history cm1 key None (now w2))
    as [history cm4]. simpl in Hst4, Hmax4, Hwf4.
  unfold bind at 1. unfold llm_generate_response at 1. simpl.
  destruct (llm_provider (clone w)) as [provider|]; simpl.
  2: { eexists None, _. split; [reflexivity |]. split; [discriminate |].
       intros _. simpl. rewrite Hst4. exact Hst1. }
  destruct (generate_response provider _) as [s | |]; simpl.
  - destruct (String.eqb s "") eqn:Hs; simpl.
    + eexists (Some s), _. split; [reflexivity |]. split; [discriminate |].
      intros _. simpl. rewrite Hs. simpl. rewrite Hst4. exact Hst1.
    + eexists (Some s), _. split; [reflexivity |]. split; [discriminate |].
      intros _. simpl. rewrite Hs. simpl.
      rewrite add_message_stored by exact Hwf4.
      rewrite Hmax4, Hst4, Hst1.
      unfold cm1 at 1. rewrite add_message_max.
      rewrite lastn_snoc_lastn, <- app_assoc, Hnow2. reflexivity.
  - eexists None, _. split; [reflexivity |]. split; [discriminate |].
    intros _. simpl. rewrite Hst4. exact Hst1.
  - eexists None, _. split; [reflexivity |]. split; [discriminate |].
    intros _. simpl. rewrite Hst4. exact Hst1.
Qed.

(** X19.  [stop] always leaves the clone not running, also when a platform's
    [stop()] raises; it never unbinds the provider or touches the history; on
    a clone that is not running it does nothing; and a second [stop] is a
    no-op that returns normally. *)
Theorem stop_always_stops (w : World G) :
  ∃ o w',
    stop w = (o, w') ∧
    is_running (clone w') = false ∧
    llm_provider (clone w') = llm_provider (clone w) ∧
    context_manager (clone w') = context_manager (clone w) ∧
    (is_running (clone w) = false → o = Return tt ∧ w' = w) ∧
    (Forall (λ p, stop_raises p.2 = false) (platforms (clone w)) → o = Return tt) ∧
    stop w' = (Return tt, w').
Proof.
  unfold stop. destruct (is_running (clone w)) eqn:Hrun; simpl.
  - unfold stop_platforms. simpl.
    destruct (platform_log_clone (platforms (clone w)) CallPlatformStop
                (with_clone w (set_is_running (clone w) false))) as [Hclone _].
    destruct (List.find _ _) as [[name p]|] eqn:Hfind.
    + eexists _, _. split; [reflexivity |]. rewrite Hclone. simpl.
      repeat split; try done.
      intros Hok. exfalso. apply find_some in Hfind as [Hin Hraise].
      apply list_elem_of_In in Hin.
      rewrite Forall_forall in Hok. specialize (Hok _ Hin). simpl in *. congruence.
    + eexists _, _. split; [reflexivity |]. rewrite Hclone. simpl.
      repeat split; done.
  - exists (Return tt), w. rewrite Hrun. simpl. repeat split; done.
Qed.


(** X21.  [start] on a clone that is not running and has a provider creates a
    start task for every registered platform, in registration order, whether
    or not one of them fails; [start] on a running clone starts none. *)
Theorem start_starts_every_platform (w : World G) :
  (is_running (clone w) = false → is_Some (llm_provider (clone w)) →
   calls (start w).2 = calls w ++ map (λ p, CallPlatformStart p.1) (platforms (clone w))) ∧
  (is_running (clone w) = true → calls (start w).2 = calls w).
Proof.
  unfold start. split.
  - intros -> [provider ->]. unfold start_platforms. simpl.
    destruct (platform_log_clone (platforms (clone w)) CallPlatformStart
                (with_clone w (set_is_running (clone w) true))) as [_ Hcalls].
    destruct (List.find _ _) as [[name p]|]; simpl; exact Hcalls.
  - intros ->. reflexivity.
Qed.

End WithRandom.

Lemma process_message_history_witness :
  ∃ r w',
    process_message "whatsapp" (mkMessageData None (Some "anyone there?") None)
      (world_of (running_clone settings_without_triggers (constant_provider Raises))
                [(1 # 10)%Q]) = (Return r, w') ∧
    ContextManager.stored (context_manager (clone w')) "whatsapp:unknown"
      = [ContextManager.mkMessage "anyone there?" "user" noon].
Proof.
  destruct (process_message_history
              (world_of (running_clone settings_without_triggers (constant_provider Raises))
                        [(1 # 10)%Q])
              "whatsapp" (mkMessageData None (Some "anyone there?") None))
    as (r & w' & Hrun & _ & Hstored).
  - apply init_well_formed.
  - exists r, w'. split; [exact Hrun |].
    refine (eq_trans (Hstored eq_refl) _).
    assert (r = None) as -> by (vm_compute in Hrun; congruence).
    reflexivity.
Defined.


Lemma start_starts_every_platform_witness :
  calls (start (world_of (add_platform
                            (add_platform (set_llm_provider (init default_settings)
                                             (constant_provider NoText))
                                          "teams" steady_platform)
                            "whatsapp" flaky_platform) [])).2
  = [CallPlatformStart "teams"; CallPlatformStart "whatsapp"].
Proof.
  apply (start_starts_every_platform
           (world_of (add_platform
                        (add_platform (set_llm_provider (init default_settings)
                                         (constant_provider NoText))
                                      "teams" steady_platform)
                        "whatsapp" flaky_platform) [])).
  - reflexivity.
  - eexists. reflexivity.
Defined.

End DigitalCloneExtra.

(** ** The configuration tree: merge, dotted access, validation *)

Module SettingsExtra.
Import PersonalityEngine PersonalityEngineExtra SettingsConfig.

Ltac solve_wf :=
  repeat match goal with
         | |- wf_value (VDict _) =>
             apply wf_dict; [apply (bool_decide_unpack _); vm_compute; exact I |]
         | |- wf_value _ => constructor
         | |- Forall _ _ => constructor; simpl
         end.

Lemma merge_value_dict (default user : Dict) :
  merge_value (Some (VDict default)) (VDict user) = VDict (_merge_configs default user).
Proof.
  unfold _merge_configs. simpl. f_equal.
  revert default. induction user as [|[key value] user IH]; intros default; [reflexivity |].
  simpl. apply IH.
Qed.

Lemma merge_configs_cons (default : Dict) (key : string) (value : Value) (user : Dict) :
  _merge_configs default ((key, value) :: user) =
  _merge_configs (dict_set key (merge_value (dict_get key default) value) default) user.
Proof. reflexivity. Qed.

Lemma dict_get_Some_keys {V} (key : string) (v : V) (d : list (string * V)) :
  dict_get key d = Some v → (key, v) ∈ d.
Proof.
  induction d as [|[k v'] d IH]; simpl; [discriminate |].
  destruct (String.eqb_spec k key) as [-> | Hk].
  - intros [= ->]. apply list_elem_of_here.
  - intros Hget. apply list_elem_of_further, IH, Hget.
Qed.

Lemma dict_get_not_in {V} (key : string) (d : list (string * V)) :
  key ∉ d.*1 → dict_get key d = None.
Proof.
  intros Hnot. destruct (dict_get key d) as [v|] eqn:Hget; [| reflexivity].
  exfalso. apply Hnot. apply dict_get_Some_keys in Hget.
  apply list_elem_of_fmap. exists (key, v). done.
Qed.

Lemma merge_lookup (user : Dict) : ∀ (default : Dict) (k : string),
  NoDup user.*1 →
  dict_get k (_merge_configs default user) =
  match dict_get k user with
  | Some uv => Some (merge_value (dict_get k default) uv)
  | None => dict_get k default
  end.
Proof.
  induction user as [|[key value] user IH]; intros default k Hnd; [reflexivity |].
  rewrite fmap_cons in Hnd. apply NoDup_cons in Hnd as [Hkey Hnd].
  rewrite merge_configs_cons, IH by exact Hnd. simpl.
  destruct (String.eqb_spec key k) as [-> | Hne].
  - rewrite (dict_get_not_in k user Hkey). apply dict_get_set_eq.
  - rewrite dict_get_set_ne by exact Hne. reflexivity.
Qed.

(** X22.  In the merged configuration every key of the user's dict (a dict
    has no two equal keys) holds the user's value, merged recursively with
    the default when both are dicts, and every other key holds the
    default. *)
Theorem merge_configs_lookup (default user : Dict) (k : string) :
  NoDup user.*1 →
  dict_get k (_merge_configs default user) =
  match dict_get k user with
  | None => dict_get k default
  | Some uv =>
      Some (match dict_get k default, uv with
            | Some (VDict dm), VDict um => VDict (_merge_configs dm um)
            | _, _ => uv
            end)
  end.
Proof.
  intros Hnd. rewrite merge_lookup by exact Hnd.
  destruct (dict_get k user) as [uv|]; [| reflexivity].
  destruct (dict_get k default) as [[| | | | | |dm]|]; destruct uv; try reflexivity.
  rewrite merge_value_dict. reflexivity.
Qed.

Lemma merge_configs_lookup_witness :
  dict_get "ignore_senders"
    (_merge_configs _get_default_config [("ignore_senders", VList [VStr "spammer"])])
  = Some (VList [VStr "spammer"]) ∧
  dict_get "response_triggers"
    (_merge_configs _get_default_config [("ignore_senders", VList [VStr "spammer"])])
  = Some (VList [VStr "help"; VStr "question"; VStr "urgent"; VStr "please"]).
Proof.
  split.
  - rewrite (merge_configs_lookup _get_default_config
               [("ignore_senders", VList [VStr "spammer"])] "ignore_senders").
    + reflexivity.
    + apply (bool_decide_unpack _). vm_compute. exact I.
  - rewrite (merge_configs_lookup _get_default_config
               [("ignore_senders", VList [VStr "spammer"])] "response_triggers").
    + reflexivity.
    + apply (bool_decide_unpack _). vm_compute. exact I.
Defined.

(** X23.  A scalar or list that the user's file sets, at any depth, is what
    the merged configuration holds at that path, whatever the defaults hold
    there. *)
Theorem user_value_wins (path : list string) :
  ∀ (default user : Dict) (v : Value),
    wf_value (VDict user) →
    path ≠ [] →
    get_path path (VDict user) = Some v →
    is_dict v = false →
    get_path path (VDict (_merge_configs default user)) = Some v.
Proof.
  induction path as [|k path IH]; intros default user v Hwf Hne Hget Hleaf; [done |].
  inversion Hwf as [| | | | | |d Hnd Hall]; subst.
  simpl in *. rewrite merge_lookup by exact Hnd.
  destruct (dict_get k user) as [uv|] eqn:Huv; [| discriminate].
  destruct path as [|k' path].
  - simpl in *. injection Hget as ->.
    destruct v; try reflexivity; try discriminate;
      destruct (dict_get k default) as [[]|]; reflexivity.
  - destruct uv as [| | | | | |um]; try discriminate.
    assert (wf_value (VDict um)) as Hwfu.
    { rewrite Forall_forall in Hall.
      apply (Hall (k, VDict um)), dict_get_Some_keys, Huv. }
    destruct (dict_get k default) as [[| | | | | |dm]|]; try exact Hget.
    rewrite merge_value_dict. apply IH; [exact Hwfu | discriminate | exact Hget | exact Hleaf].
Qed.

Lemma user_value_wins_witness :
  get_path ["llm"; "ollama"; "model"]
    (VDict (_merge_configs _get_default_config
              [("llm", VDict [("ollama", VDict [("model", VStr "mistral")])])]))
  = Some (VStr "mistral").
Proof.
  apply (user_value_wins ["llm"; "ollama"; "model"] _get_default_config
           [("llm", VDict [("ollama", VDict [("model", VStr "mistral")])])]).
  - solve_wf.
  - discriminate.
  - reflexivity.
  - reflexivity.
Defined.

Lemma filter_ext_in {A} (P Q : A → Prop) `{∀ x, Decision (P x)} `{∀ x, Decision (Q x)}
    (l : list A) :
  (∀ x, x ∈ l → (P x ↔ Q x)) → filter P l = filter Q l.
Proof.
  induction l as [|x l IH]; intros Hext; [reflexivity |].
  rewrite !filter_cons.
  assert (filter P l = filter Q l) as ->
    by (apply IH; intros y Hy; apply Hext; right; exact Hy).
  pose proof (Hext x (list_elem_of_here x l)) as Hx.
  destruct (decide (P x)), (decide (Q x)); tauto.
Qed.

(** X24.  The merged configuration lists the default keys first, in their
    order, followed by the user's new keys in the user's order; in particular
    no key is lost and, when the defaults have no duplicate key, neither has
    the result. *)
Theorem merge_configs_keys (user : Dict) : ∀ default : Dict,
  NoDup user.*1 →
  (_merge_configs default user).*1
    = default.*1 ++ filter (λ k, k ∉ default.*1) user.*1.
Proof.
  induction user as [|[key value] user IH]; intros default Hnd.
  - simpl. rewrite app_nil_r. reflexivity.
  - rewrite fmap_cons in Hnd. apply NoDup_cons in Hnd as [Hkey Hnd].
    rewrite merge_configs_cons, IH by exact Hnd.
    rewrite dict_set_keys, fmap_cons, filter_cons. simpl.
    destruct (dict_get key default) as [old|] eqn:Hget.
    + apply dict_get_Some_keys in Hget.
      assert (key ∈ default.*1) as Hin
        by (apply list_elem_of_fmap; exists (key, old); done).
      destruct (decide (key ∉ default.*1)); [contradiction | reflexivity].
    + pose proof (dict_get_None_keys key default Hget) as Hnot.
      destruct (decide (key ∉ default.*1)); [| contradiction].
      rewrite <- app_assoc. simpl. do 2 f_equal.
      apply filter_ext_in. intros x Hx.
      rewrite elem_of_app, list_elem_of_singleton.
      split; [tauto |]. intros Hx' [Hd | ->]; [tauto | contradiction].
Qed.

Lemma merge_configs_keys_witness :
  (_merge_configs _get_default_config
     [("llm", VDict [("provider", VStr "openai")]); ("owner", VStr "me")]).*1
  = ["personality"; "platforms"; "llm"; "plugins"; "logging"; "ignore_senders";
     "response_triggers"; "context"; "owner"].
Proof.
  rewrite (merge_configs_keys
             [("llm", VDict [("provider", VStr "openai")]); ("owner", VStr "me")]
             _get_default_config).
  - reflexivity.
  - apply (bool_decide_unpack _). vm_compute. exact I.
Defined.

Lemma get_path_set_path (keys : list string) (value : Value) :
  ∀ current current',
    set_path keys value current = Some current' →
    get_path keys current' = Some value.
Proof.
  induction keys as [|k keys IH]; intros current current' Hset; [discriminate |].
  destruct current as [| | | | | |d]; try discriminate.
  simpl in Hset. destruct keys as [|k' keys].
  - injection Hset as <-. simpl. rewrite dict_get_set_eq. reflexivity.
  - destruct (set_path (k' :: keys) value _) as [child|] eqn:Hchild; [| discriminate].
    injection Hset as <-.
    change (get_path (k :: k' :: keys) (VDict ?d))
      with (match dict_get k d with
            | Some v => get_path (k' :: keys) v
            | None => None
            end).
    rewrite dict_get_set_eq. apply (IH _ _ Hchild).
Qed.

Lemma split_dot_nonempty (s : string) : split_dot s ≠ [].
Proof.
  induction s as [|c s IH]; simpl; [discriminate |].
  destruct (Ascii.eqb c "."); [discriminate |].
  destruct (split_dot s); [contradiction | discriminate].
Qed.

Lemma set_path_step (k : string) (keys : list string) (value : Value) (d : Dict) :
  keys ≠ [] →
  set_path (k :: keys) value (VDict d) =
  match set_path keys value
          (default (VDict [])
             (dict_get k (match dict_get k d with
                          | Some _ => d
                          | None => dict_set k (VDict []) d
                          end))) with
  | Some child =>
      Some (VDict (dict_set k child (match dict_get k d with
                                     | Some _ => d
                                     | None => dict_set k (VDict []) d
                                     end)))
  | None => None
  end.
Proof. destruct keys; [done | reflexivity]. Qed.

Lemma set_path_fresh (keys : list string) (value : Value) :
  keys ≠ [] → is_Some (set_path keys value (VDict [])).
Proof.
  induction keys as [|k keys IH]; intros Hne; [done |].
  destruct (decide (keys = [])) as [-> | Hkeys]; [eexists; reflexivity |].
  rewrite set_path_step by exact Hkeys.
  cbn [dict_get dict_set]. rewrite String.eqb_refl. cbn [default from_option id].
  destruct (IH Hkeys) as [child ->]. eexists. reflexivity.
Qed.

(** X25.  [set] followed by [get] on the same dotted key returns the value
    that was set, whatever the key and the default; and [set] succeeds on
    every key whose first segment is not yet in the configuration, creating
    the intermediate dicts. *)
Theorem set_then_get (config : Dict) (key : string) (value : Value) :
  (∀ config' default, set config key value = Some config' →
                      get config' key default = value) ∧
  (dict_get (hd "" (split_dot key)) config = None → is_Some (set config key value)).
Proof.
  unfold set, get. split.
  - intros config' default Hset.
    destruct (set_path (split_dot key) value (VDict config)) as [[| | | | | |c]|] eqn:Hsp;
      try discriminate.
    injection Hset as ->.
    rewrite (get_path_set_path _ _ _ _ Hsp). reflexivity.
  - intros Hfresh.
    pose proof (split_dot_nonempty key) as Hne.
    destruct (split_dot key) as [|k keys]; [done |]. simpl in Hfresh.
    destruct (decide (keys = [])) as [-> | Hkeys]; [eexists; reflexivity |].
    rewrite set_path_step by exact Hkeys.
    rewrite Hfresh, dict_get_set_eq. cbn [default from_option id].
    destruct (set_path_fresh keys value Hkeys) as [child ->].
    eexists. reflexivity.
Qed.

Lemma set_then_get_witness :
  (set _get_default_config "llm.ollama.model" (VStr "mistral"))
    ≫= (λ config, Some (get config "llm.ollama.model" VNone))
  = Some (VStr "mistral") ∧
  is_Some (set _get_default_config "owner.name" (VStr "me")).
Proof.
  split.
  - destruct (set _get_default_config "llm.ollama.model" (VStr "mistral"))
      as [config'|] eqn:Hset; [| vm_compute in Hset; discriminate].
    simpl.
    rewrite (proj1 (set_then_get _get_default_config "llm.ollama.model" (VStr "mistral"))
               config' VNone Hset).
    reflexivity.
  - apply (set_then_get _get_default_config "owner.name" (VStr "me")). reflexivity.
Defined.

(** X26.  The default configuration passes validation, and so does its merge
    with any user dict that has neither a ['personality'] nor an ['llm']
    section. *)
Theorem defaults_validate (user : Dict) :
  NoDup user.*1 →
  dict_get "personality" user = None →
  dict_get "llm" user = None →
  validate_config (_merge_configs _get_default_config user) = Some true.
Proof.
  intros Hnd Hp Hl. unfold validate_config.
  rewrite !merge_lookup by exact Hnd. rewrite Hp, Hl. reflexivity.
Qed.

Lemma defaults_validate_witness :
  validate_config
    (_merge_configs _get_default_config
       [("ignore_senders", VList [VStr "spammer"]); ("logging", VDict [("level", VStr "DEBUG")])])
  = Some true.
Proof.
  apply (defaults_validate
           [("ignore_senders", VList [VStr "spammer"]);
            ("logging", VDict [("level", VStr "DEBUG")])]).
  - apply (bool_decide_unpack _). vm_compute. exact I.
  - reflexivity.
  - reflexivity.
Defined.

Lemma untouched_get_path (path : list string) :
  ∀ user : Value, untouched path user → get_path path user = None.
Proof.
  induction path as [| k rest IH]; intros user Hunt; [destruct Hunt |].
  cbn [get_path untouched] in *. destruct user as [s | z | q | b | | l | d]; try reflexivity.
  destruct (dict_get k d) as [v |]; [apply IH; exact Hunt | reflexivity].
Qed.

Lemma get_path_merge_untouched (path : list string) :
  ∀ (default user : Dict),
    wf_value (VDict user) →
    untouched path (VDict user) →
    get_path path (VDict (_merge_configs default user)) = get_path path (VDict default).
Proof.
  induction path as [| k rest IH]; intros default user Hwf Hunt; [destruct Hunt |].
  inversion Hwf as [| | | | | | d Hnd Hall]; subst.
  cbn [get_path untouched] in *. rewrite merge_lookup by exact Hnd.
  destruct (dict_get k user) as [u |] eqn:Hu; [| reflexivity].
  assert (Hwfu : wf_value u).
  { apply dict_get_Some_keys in Hu. rewrite Forall_forall in Hall. exact (Hall _ Hu). }
  destruct rest as [| k' rest']; [destruct Hunt |].
  destruct u as [| | | | | | um]; try (destruct Hunt).
  destruct (dict_get k default) as [dv |].
  - destruct dv as [| | | | | | dm];
      try (cbn [merge_value]; apply (untouched_get_path (k' :: rest')); exact Hunt).
    rewrite merge_value_dict. apply IH; assumption.
  - cbn [merge_value]. apply (untouched_get_path (k' :: rest')). exact Hunt.
Qed.

(** X27.  A key the user's configuration holds nothing at reads, after the
    merge, exactly as it reads in the defaults: [get] returns the default
    configuration's value there, or the caller's fallback if the defaults
    have none. *)
Theorem default_survives (default user : Dict) (key : string) (fallback : Value) :
  wf_value (VDict user) →
  untouched (split_dot key) (VDict user) →
  get (_merge_configs default user) key fallback = get default key fallback.
Proof.
  intros Hwf Hunt. unfold get. rewrite get_path_merge_untouched by assumption. reflexivity.
Qed.

Lemma default_survives_witness :
  get (_merge_configs _get_default_config
         [("llm", VDict [("ollama", VDict [("model", VStr "mistral")])])])
      "llm.ollama.timeout" (VInt 0)
  = get _get_default_config "llm.ollama.timeout" (VInt 0).
Proof.
  apply (default_survives _get_default_config
           [("llm", VDict [("ollama", VDict [("model", VStr "mistral")])])]
           "llm.ollama.timeout" (VInt 0)).
  - solve_wf.
  - vm_compute. exact I.
Defined.

End SettingsExtra.

(** * The Ollama provider *)

Module OllamaProviderExtra.
Import PersonalityEngine SettingsConfig SettingsExtra OllamaProvider.

Lemma slice_from_last10 {A} (l : list A) : slice_from (-10) l = lastn 10 l.
Proof.
  unfold slice_from, lastn. f_equal.
  change (-10 <? 0) with true. cbv iota. lia.
Qed.

Lemma insert_before_last_snoc {A} (x u : A) (pre : list A) :
  insert_before_last x (pre ++ [u]) = (pre ++ [x]) ++ [u].
Proof.
  unfold insert_before_last. destruct (pre ++ [u]) as [| a l] eqn:Hl.
  - destruct pre; discriminate.
  - rewrite <- Hl. rewrite length_app. simpl length.
    replace (length pre + 1 - 1)%nat with (length pre) by lia.
    rewrite take_app_length, drop_app_length, <- app_assoc. reflexivity.
Qed.

Lemma chat_fold (history : list ContextManager.MessageDict) :
  ∀ (pre : list ChatMessage) (u : ChatMessage),
    fold_left
      (λ messages msg,
         if PyStr.mem (ContextManager.d_role msg) ["user"; "assistant"]
         then insert_before_last
                (mkChat (ContextManager.d_role msg) (ContextManager.d_content msg)) messages
         else messages)
      history (pre ++ [u])
    = pre
      ++ map (λ msg, mkChat (ContextManager.d_role msg) (ContextManager.d_content msg))
           (filter (λ msg, ContextManager.d_role msg ∈ ["user"; "assistant"]) history)
      ++ [u].
Proof.
  unfold PyStr.mem.
  induction history as [| msg history IH]; intros pre u; [reflexivity |].
  cbn [fold_left]. rewrite filter_cons.
  destruct (decide (ContextManager.d_role msg ∈ ["user"; "assistant"])) as [Hin | Hout].
  - rewrite (bool_decide_eq_true_2 _ Hin), insert_before_last_snoc, IH.
    cbn [map]. rewrite <- app_assoc. reflexivity.
  - rewrite (bool_decide_eq_false_2 _ Hout). apply IH.
Qed.

(** X28.  The chat sent to the model is the system prompt, then the turns of
    the last ten history entries whose role is ['user'] or ['assistant'], in
    their order, then the user prompt. *)
Theorem chat_messages_order (system_prompt user_prompt : string)
    (history : list ContextManager.MessageDict) :
  chat_messages system_prompt user_prompt history
  = mkChat "system" system_prompt
    :: map (λ msg, mkChat (ContextManager.d_role msg) (ContextManager.d_content msg))
         (filter (λ msg, ContextManager.d_role msg ∈ ["user"; "assistant"])
                 (lastn 10 history))
    ++ [mkChat "user" user_prompt].
Proof.
  unfold chat_messages. rewrite slice_from_last10.
  exact (chat_fold (lastn 10 history) [mkChat "system" system_prompt]
           (mkChat "user" user_prompt)).
Qed.

Lemma rstrip_cons (c : ascii) (s : string) :
  rstrip (String c s) =
  match rstrip s with
  | EmptyString => if is_space c then EmptyString else String c EmptyString
  | String c' r => String c (String c' r)
  end.
Proof. reflexivity. Qed.

Lemma rstrip_idem (s : string) : rstrip (rstrip s) = rstrip s.
Proof.
  induction s as [| c s IH]; [reflexivity |].
  rewrite (rstrip_cons c s). destruct (rstrip s) as [| c' r] eqn:Hr.
  - destruct (is_space c) eqn:Hc; [reflexivity |].
    rewrite rstrip_cons. cbn [rstrip]. rewrite Hc. reflexivity.
  - rewrite rstrip_cons, IH. reflexivity.
Qed.

Lemma rstrip_lstrip (t : string) : rstrip t = t → rstrip (lstrip t) = lstrip t.
Proof.
  induction t as [| c t IH]; intros Ht; [reflexivity |].
  cbn [lstrip]. destruct (is_space c) eqn:Hc; [| exact Ht].
  apply IH. rewrite rstrip_cons in Ht. destruct (rstrip t) as [| c' r].
  - rewrite Hc in Ht. discriminate.
  - injection Ht as Ht. exact Ht.
Qed.

Lemma lstrip_idem (s : string) : lstrip (lstrip s) = lstrip s.
Proof.
  induction s as [| c s IH]; [reflexivity |].
  cbn [lstrip]. destruct (is_space c) eqn:Hc; [exact IH |].
  cbn [lstrip]. rewrite Hc. reflexivity.
Qed.

Lemma lstrip_length (s : string) : (String.length (lstrip s) ≤ String.length s)%nat.
Proof.
  induction s as [| c s IH]; [reflexivity |].
  cbn [lstrip]. destruct (is_space c); cbn [String.length]; lia.
Qed.

Lemma lstrip_first (c : ascii) (s : string) :
  lstrip (String c s) = String c s → is_space c = false.
Proof.
  cbn [lstrip]. destruct (is_space c); [| reflexivity].
  intros Heq. pose proof (lstrip_length s) as Hlen.
  rewrite Heq in Hlen. cbn [String.length] in Hlen. lia.
Qed.

Lemma rstrip_snoc (s : string) (c : ascii) :
  is_space c = false →
  rstrip (s ++ String c EmptyString) = (s ++ String c EmptyString)%string.
Proof.
  intros Hc. induction s as [| a s IH].
  - change (rstrip (String c EmptyString) = String c EmptyString).
    rewrite rstrip_cons. cbn [rstrip]. rewrite Hc. reflexivity.
  - change ((String a s ++ String c EmptyString)%string)
      with (String a (s ++ String c EmptyString)).
    rewrite rstrip_cons, IH.
    destruct (s ++ String c EmptyString)%string as [| c' r] eqn:Hs; [| reflexivity].
    destruct s; discriminate.
Qed.

Lemma strip_lstrip (s : string) : lstrip (strip s) = strip s.
Proof. apply lstrip_idem. Qed.

Lemma strip_rstrip (s : string) : rstrip (strip s) = strip s.
Proof. apply rstrip_lstrip, rstrip_idem. Qed.

Lemma remove_prefixes_trimmed (prefixes : list string) :
  ∀ response : string,
    lstrip response = response ∧ rstrip response = response →
    lstrip (fold_left remove_prefix prefixes response)
      = fold_left remove_prefix prefixes response ∧
    rstrip (fold_left remove_prefix prefixes response)
      = fold_left remove_prefix prefixes response.
Proof.
  induction prefixes as [| prefix prefixes IH]; intros response Htrim; [exact Htrim |].
  cbn [fold_left]. apply IH. unfold remove_prefix.
  destruct (String.prefix _ _); [| exact Htrim].
  split; [apply strip_lstrip | apply strip_rstrip].
Qed.

Lemma first_sentence_trimmed (response sentence : string) :
  lstrip response = response →
  first_sentence response = Some sentence →
  lstrip (sentence ++ ".") = (sentence ++ ".")%string ∧
  rstrip (sentence ++ ".") = (sentence ++ ".")%string.
Proof.
  intros Hl Hs. split; [| apply rstrip_snoc; reflexivity].
  destruct response as [| c response]; [discriminate |].
  cbn [first_sentence] in Hs.
  destruct (String.prefix ". " (String c response)).
  - injection Hs as <-. reflexivity.
  - destruct (first_sentence response) as [rest |]; [| discriminate].
    injection Hs as <-. apply lstrip_first in Hl.
    change ((String c rest ++ ".")%string) with (String c (rest ++ ".")).
    cbn [lstrip]. rewrite Hl. reflexivity.
Qed.

Lemma post_process_trimmed_both (response response_length : string) :
  lstrip (_post_process_response response response_length)
    = _post_process_response response response_length ∧
  rstrip (_post_process_response response response_length)
    = _post_process_response response response_length.
Proof.
  unfold _post_process_response.
  pose proof (remove_prefixes_trimmed unwanted_prefixes (strip response)
                (conj (strip_lstrip response) (strip_rstrip response))) as Htrim.
  destruct (String.eqb response_length "short" && _); [| exact Htrim].
  destruct (first_sentence _) as [sentence |] eqn:Hs; [| exact Htrim].
  exact (first_sentence_trimmed _ _ (proj1 Htrim) Hs).
Qed.

(** X29.  Whatever the model answered, the post-processed reply carries no
    surrounding whitespace: stripping it again changes nothing, and its first
    character, if it has one, is not a space. *)
Theorem post_process_trimmed (response response_length : string) :
  strip (_post_process_response response response_length)
    = _post_process_response response response_length ∧
  (∀ c rest, _post_process_response response response_length = String c rest →
             is_space c = false).
Proof.
  destruct (post_process_trimmed_both response response_length) as [Hl Hr].
  split.
  - unfold strip. rewrite Hr. exact Hl.
  - intros c rest Heq. rewrite Heq in Hl. exact (lstrip_first _ _ Hl).
Qed.

(** X30.  When the user's configuration holds nothing at
    ['llm.ollama.system_prompt'], the ['ollama'] section of the merged
    configuration has the key with the defaults' [None], so the provider's
    [base_system_prompt] is [None] and not the default prompt text. *)
Theorem unset_system_prompt_is_none (user : Dict) (default_system_prompt : string) :
  wf_value (VDict user) →
  untouched ["llm"; "ollama"; "system_prompt"] (VDict user) →
  ∃ ollama : Dict,
    get_path ["llm"; "ollama"] (VDict (_merge_configs _get_default_config user))
      = Some (VDict ollama) ∧
    base_system_prompt ollama default_system_prompt = VNone.
Proof.
  intros Hwf Hunt.
  pose proof (get_path_merge_untouched ["llm"; "ollama"; "system_prompt"]
                _get_default_config user Hwf Hunt) as Hget.
  change (get_path ["llm"; "ollama"; "system_prompt"] (VDict _get_default_config))
    with (Some VNone) in Hget.
  cbn [get_path] in *.
  destruct (dict_get "llm" (_merge_configs _get_default_config user)) as [llm |];
    [| discriminate].
  destruct llm as [| | | | | | llm]; try discriminate.
  destruct (dict_get "ollama" llm) as [ollama |]; [| discriminate].
  destruct ollama as [| | | | | | ollama]; try discriminate.
  exists ollama. split; [reflexivity |].
  unfold base_system_prompt.
  destruct (dict_get "system_prompt" ollama) as [v |]; [| discriminate].
  injection Hget as ->. reflexivity.
Qed.

Lemma unset_system_prompt_is_none_witness :
  ∃ ollama : Dict,
    get_path ["llm"; "ollama"]
      (VDict (_merge_configs _get_default_config
                [("llm", VDict [("ollama", VDict [("model", VStr "mistral")])])]))
      = Some (VDict ollama) ∧
    base_system_prompt ollama "You are a digital clone." = VNone.
Proof.
  apply (unset_system_prompt_is_none
           [("llm", VDict [("ollama", VDict [("model", VStr "mistral")])])]
           "You are a digital clone.").
  - solve_wf.
  - vm_compute. exact I.
Defined.

End OllamaProviderExtra.
